(** * Node identity of a cluster peer: identity/identity.go

    A shallow embedding of the [identity] package: the [Identity] record,
    its generator ([Default]), its JSON codec ([ToJSON], [LoadJSON]), the
    cluster-secret codec ([DecodeClusterSecret], [EncodeProtectorKey]), the
    validator ([Validate]) and the environment overlay ([ApplyEnvVars]).

    Go values are modelled as follows.
    - [string] is a Rocq [string] (a sequence of 8-bit characters);
      [peer.ID] is declared in Go as [type ID string].
    - [[]byte] is a [list byte]; where Go tells a nil slice from an empty
      one (the [Secret] field) the slice is an [option (list byte)] with
      [None] for nil.
    - an [error] is a value of the inductive type [error]; a Go result
      [(T, error)] in which the value is meaningless when the error is set
      is a [result T].
    - a method with a pointer receiver returns the receiver's final state
      together with its own result: the mutations made before an early
      [return err] are kept.
    - a call that may panic returns an [exec]; [recover] turns a panic
      into a normal return.
    Calls to the logger are not modelled. *)

From Stdlib Require Import Strings.String Strings.Ascii Strings.Byte.
From Stdlib Require Import List NArith Bool Arith Lia DecimalString.
#[warnings="-stdlib-vector"]
From Stdlib Require Vector.
Import ListNotations.
Local Open Scope string_scope.
Local Open Scope list_scope.

Set Implicit Arguments.

(** ** Errors, results and panics *)

(** The error values the package builds or receives. [fmt_Errorf p e] is
    [fmt.Errorf(p + "%s", e)]; [errors_New] also carries messages that are
    completely formatted. *)
Inductive error : Type :=
| errors_New (text : string)
| fmt_Errorf (before : string) (arg : error)
| hex_InvalidByteError (c : byte)
| hex_ErrLength.

Definition result (A : Type) : Type := (error + A)%type.

Definition bytes : Type := list byte.

(** A Go slice of bytes that may be nil. *)
Definition slice : Type := option bytes.

Definition elements (s : slice) : bytes :=
  match s with
  | None => []
  | Some l => l
  end.

Definition len (s : slice) : nat := List.length (elements s).

(** The decimal rendering of the verb [%d]. *)
Definition decimal (n : nat) : string := NilZero.string_of_uint (Nat.to_uint n).

(** ** encoding/hex of the Go standard library *)

Module hex.

Definition hextable : string := "0123456789abcdef".

(** [hextable[i]]; only used with [i < 16]. *)
Definition hexdigit (i : N) : ascii :=
  match String.get (N.to_nat i) hextable with
  | Some c => c
  | None => "0"%char
  end.

(** Conversion of an integer to the Go type [byte]. *)
Definition to_byte (n : N) : byte :=
  match Byte.of_N (n mod 256) with
  | Some b => b
  | None => x00
  end.

Fixpoint EncodeToString (src : bytes) : string :=
  match src with
  | [] => EmptyString
  | v :: rest =>
      String (hexdigit (N.shiftr (Byte.to_N v) 4))
        (String (hexdigit (N.land (Byte.to_N v) 15)) (EncodeToString rest))
  end.

Definition fromHexChar (c : ascii) : option N :=
  let n := N_of_ascii c in
  if (48 <=? n)%N && (n <=? 57)%N then Some (n - 48)%N
  else if (97 <=? n)%N && (n <=? 102)%N then Some (n - 97 + 10)%N
  else if (65 <=? n)%N && (n <=? 70)%N then Some (n - 65 + 10)%N
  else None.

(** [Decode]: the bytes decoded so far and the error, if any. An invalid
    character is reported before an odd length. *)
Fixpoint Decode (src : string) : bytes * option error :=
  match src with
  | EmptyString => ([], None)
  | String c EmptyString =>
      match fromHexChar c with
      | None => ([], Some (hex_InvalidByteError (byte_of_ascii c)))
      | Some _ => ([], Some hex_ErrLength)
      end
  | String c1 (String c2 rest) =>
      match fromHexChar c1 with
      | None => ([], Some (hex_InvalidByteError (byte_of_ascii c1)))
      | Some a =>
          match fromHexChar c2 with
          | None => ([], Some (hex_InvalidByteError (byte_of_ascii c2)))
          | Some b =>
              let (out, err) := Decode rest in
              (to_byte (N.lor (N.shiftl a 4) b) :: out, err)
          end
      end
  end.

Definition DecodeString (s : string) : bytes * option error := Decode s.

End hex.

(** ** The cluster secret codec *)

(** [DecodeClusterSecret] parses a hex-encoded string and checks that it is
    empty or exactly 32 bytes long. The empty secret is returned as nil. *)
Definition DecodeClusterSecret (hexSecret : string) : result slice :=
  match hex.DecodeString hexSecret with
  | (_, Some err) => inl err
  | (secret, None) =>
      let secretLen := List.length secret in
      if Nat.eqb secretLen 0 then inr None
      else if Nat.eqb secretLen 32 then inr (Some secret)
      else inl (errors_New ("input secret is " ++ decimal secretLen
                            ++ " bytes, cluster secret should be 32")%string)
  end.

(** [EncodeProtectorKey] converts a byte slice to its hex string. *)
Definition EncodeProtectorKey (secretBytes : slice) : string :=
  hex.EncodeToString (elements secretBytes).

(** ** The persisted document *)

(** [identityJSON]: the identity as it is saved, every field a string. The
    projections carry the JSON key of the field. *)
Record identityJSON : Type := {
  json_id : string;
  json_peername : string;
  json_private_key : string;
  json_secret : string
}.

(** The value of [&identityJSON{}]. *)
Definition identityJSON_zero : identityJSON :=
  {| json_id := ""; json_peername := ""; json_private_key := "";
     json_secret := "" |}.

(** ** github.com/kelseyhightower/envconfig, on [identityJSON]

    [Process(prefix, spec)] visits the fields of the struct in order. The
    variable of a field without tags is the upper-cased
    [prefix + "_" + FieldName]. Its value is read with the library's
    [lookupEnv], which is [os.LookupEnv]: it tells a variable that is set
    to the empty string from one that is not set, and only a variable
    that is not set is skipped. The value of a set variable is assigned to
    the field; for a string field this cannot fail. *)
Module envconfig.

Definition upper (c : ascii) : ascii :=
  let n := N_of_ascii c in
  if (97 <=? n)%N && (n <=? 122)%N then ascii_of_N (n - 32) else c.

Fixpoint ToUpper (s : string) : string :=
  match s with
  | EmptyString => EmptyString
  | String c rest => String (upper c) (ToUpper rest)
  end.

Definition Key (prefix name : string) : string :=
  ToUpper (prefix ++ "_" ++ name)%string.

Definition processField (lookupEnv : string -> option string)
    (key : string) (field : string) : string :=
  match lookupEnv key with
  | Some value => value
  | None => field
  end.

Definition Process (lookupEnv : string -> option string) (prefix : string)
    (spec : identityJSON) : identityJSON * option error :=
  ({| json_id := processField lookupEnv (Key prefix "ID") (json_id spec);
      json_peername :=
        processField lookupEnv (Key prefix "Peername") (json_peername spec);
      json_private_key :=
        processField lookupEnv (Key prefix "PrivateKey")
          (json_private_key spec);
      json_secret :=
        processField lookupEnv (Key prefix "Secret") (json_secret spec) |},
   None).

End envconfig.

(** ** github.com/ipfs/ipfs-cluster/config *)

(** Modelled from the spec: [config.SetIfNotDefault], a helper of the
    repository's [config] package, for a string source and destination:
    the destination is overwritten only if the incoming value differs
    from the zero value of its type, the empty string. The result is the
    new content of the destination. *)
Definition SetIfNotDefault (src : string) (dest : string) : string :=
  if String.eqb src "" then dest else src.

(** ** Panics *)

Inductive exec (A : Type) : Type :=
| Done (a : A)
| Panicked (r : error).

Arguments Done {A} a.
Arguments Panicked {A} r.

(** A function whose deferred call recovers: a panic of the body becomes
    a normal return of what the handler leaves in the named results. *)
Definition defer_recover {A : Type} (handler : error -> A) (body : exec A)
    : exec A :=
  match body with
  | Done a => Done a
  | Panicked r => Done (handler r)
  end.

(** The value a method call on a nil interface panics with. *)
Definition nil_dereference : error :=
  errors_New "runtime error: invalid memory address or nil pointer dereference".

(** ** The collaborators

    The libraries the package consumes through narrow interfaces:
    libp2p's crypto and peer packages, encoding/base64 and encoding/json.
    [PrivKey] is the Go interface [crypto.PrivKey]; a value of the Rocq
    type is a non-nil key. *)
Inductive KeyType : Type := RSA | Ed25519 | Secp256k1 | ECDSA.

Class Collaborators : Type := {
  PrivKey : Type;
  PubKey : Type;
  (** [k.Bytes()], which may fail and may panic *)
  PrivKey_Bytes : PrivKey -> exec (result bytes);
  crypto_UnmarshalPrivateKey : bytes -> result PrivKey;
  peer_IDFromPublicKey : PubKey -> result string;
  peer_IDB58Decode : string -> result string;
  (** [id.Pretty()] *)
  ID_Pretty : string -> string;
  base64_EncodeToString : bytes -> string;
  base64_DecodeString : string -> result bytes;
  (** [json.MarshalIndent(jID, "", "    ")] *)
  json_MarshalIndent : identityJSON -> result bytes;
  (** [json.Unmarshal(raw, jID)] into a fresh [identityJSON] *)
  json_Unmarshal : bytes -> result identityJSON
}.

(** ** The package *)

Definition DefaultConfigCrypto : KeyType := RSA.
Definition DefaultConfigKeyLength : nat := 2048.

Section Package.

Context {C : Collaborators}.

(** What the surroundings answer during one call: the host name, the
    random sources and the process environment. *)
Record World : Type := {
  os_Hostname : result string;
  crypto_GenerateKeyPair : KeyType -> nat -> result (PrivKey * PubKey);
  (** [pnet.GenerateV1Bytes()]: a pointer to a [[32]byte] *)
  pnet_GenerateV1Bytes : result (Vector.t byte 32);
  os_LookupEnv : string -> option string
}.

(** [Identity]: the identity of a peer. [ID] is a [peer.ID], a string;
    [PrivateKey] is an interface value, [None] when nil. *)
Record Identity : Type := {
  ID : string;
  PrivateKey : option PrivKey;
  Peername : string;
  Secret : slice
}.

(** *** Methods on [*Identity]

    A method body reads and writes the receiver and may return early
    with an error; the receiver keeps what was written before. *)
Definition method (A : Type) : Type := Identity -> Identity * result A.

Definition ret {A : Type} (a : A) : method A := fun id => (id, inr a).

Definition bind {A B : Type} (m : method A) (k : A -> method B) : method B :=
  fun id =>
    match m id with
    | (id', inl err) => (id', inl err)
    | (id', inr a) => k a id'
    end.

(** [v, err := f(); if err != nil { return err }] *)
Definition try {A : Type} (r : result A) : method A := fun id => (id, r).

(** [if err != nil { err = fmt.Errorf(before + "%s", err); return err }] *)
Definition try_wrap {A : Type} (before : string) (r : result A) : method A :=
  fun id =>
    match r with
    | inl err => (id, inl (fmt_Errorf before err))
    | inr a => (id, inr a)
    end.

Definition set_ID (pid : string) : method unit :=
  fun id => ({| ID := pid; PrivateKey := PrivateKey id;
                Peername := Peername id; Secret := Secret id |}, inr tt).

Definition set_PrivateKey (k : option PrivKey) : method unit :=
  fun id => ({| ID := ID id; PrivateKey := k;
                Peername := Peername id; Secret := Secret id |}, inr tt).

Definition set_Peername (name : string) : method unit :=
  fun id => ({| ID := ID id; PrivateKey := PrivateKey id;
                Peername := name; Secret := Secret id |}, inr tt).

Definition set_Secret (s : slice) : method unit :=
  fun id => ({| ID := ID id; PrivateKey := PrivateKey id;
                Peername := Peername id; Secret := s |}, inr tt).

Definition get_Peername : method string := fun id => (id, inr (Peername id)).

(** The receiver after the call and the returned [error], nil as [None]. *)
Definition run (m : method unit) (id : Identity) : Identity * option error :=
  match m id with
  | (id', inl err) => (id', Some err)
  | (id', inr _) => (id', None)
  end.

Declare Scope method_scope.
Delimit Scope method_scope with method.
Notation "x <- m ;; k" := (bind m (fun x => k))
  (at level 61, m at next level, right associativity) : method_scope.
Notation "m ;; k" := (bind m (fun _ => k))
  (at level 61, right associativity) : method_scope.
Local Open Scope method_scope.

(** [hostname, err := os.Hostname(); if err != nil { hostname = "" }] *)
Definition hostname_or_empty (w : World) : string :=
  match os_Hostname w with
  | inl _ => ""
  | inr hostname => hostname
  end.

(** [Validate] checks that the values of the identity seem to be working
    ones. It only reads the receiver. *)
Definition Validate (id : Identity) : option error :=
  if String.eqb (ID id) "" then Some (errors_New "cluster.ID not set")
  else
    match PrivateKey id with
    | None => Some (errors_New "no cluster.private_key set")
    | Some _ => None
    end.

Definition Validate_method : method unit :=
  fun id =>
    match Validate id with
    | Some err => (id, inl err)
    | None => (id, inr tt)
    end.

(** [Default] generates a random ID, PrivateKey and Secret. *)
Definition Default_body (w : World) : method unit :=
  set_Peername (hostname_or_empty w) ;;
  keys <- try (crypto_GenerateKeyPair w DefaultConfigCrypto
                 DefaultConfigKeyLength) ;;
  pid <- try (peer_IDFromPublicKey (snd keys)) ;;
  set_ID pid ;;
  set_PrivateKey (Some (fst keys)) ;;
  clusterSecret <- try (pnet_GenerateV1Bytes w) ;;
  set_Secret (Some (Vector.to_list clusterSecret)) ;;
  ret tt.

Definition Default (w : World) (id : Identity) : Identity * option error :=
  run (Default_body w) id.

Definition applyConfigJSON_body (jID : identityJSON) : method unit :=
  pid <- try_wrap "error decoding cluster ID: "
           (peer_IDB58Decode (json_id jID)) ;;
  set_ID pid ;;
  current <- get_Peername ;;
  set_Peername (SetIfNotDefault (json_peername jID) current) ;;
  pkb <- try_wrap "error decoding private_key: "
           (base64_DecodeString (json_private_key jID)) ;;
  pKey <- try_wrap "error parsing private_key ID: "
            (crypto_UnmarshalPrivateKey pkb) ;;
  set_PrivateKey (Some pKey) ;;
  clusterSecret <- try_wrap "error loading cluster secret from config: "
                     (DecodeClusterSecret (json_secret jID)) ;;
  set_Secret clusterSecret ;;
  Validate_method.

Definition applyConfigJSON (jID : identityJSON) (id : Identity)
    : Identity * option error :=
  run (applyConfigJSON_body jID) id.

(** [LoadJSON] receives a raw json-formatted identity and sets the
    fields from it. *)
Definition LoadJSON (w : World) (raw : bytes) (id : Identity)
    : Identity * option error :=
  match json_Unmarshal raw with
  | inl err => (id, Some err)
  | inr jID =>
      run (set_Peername (hostname_or_empty w) ;; applyConfigJSON_body jID) id
  end.

(** [id.PrivateKey.Bytes()]: the method call on the interface value. *)
Definition PrivateKey_Bytes (k : option PrivKey) : exec (result bytes) :=
  match k with
  | None => Panicked nil_dereference
  | Some key => PrivKey_Bytes key
  end.

(** [toIdentityJSON]. The named results are [jID] and [err]; the deferred
    function stores a recovered panic in [err], and [jID] is then still
    the empty document allocated at the start. *)
Definition toIdentityJSON (id : Identity) : exec (identityJSON * option error) :=
  let jID := identityJSON_zero in
  defer_recover (fun r => (jID, Some (fmt_Errorf "" r)))
    match PrivateKey_Bytes (PrivateKey id) with
    | Panicked r => Panicked r
    | Done (inl err) => Done (jID, Some err)
    | Done (inr pkeyBytes) =>
        let pKey := base64_EncodeToString pkeyBytes in
        Done ({| json_id := ID_Pretty (ID id);
                 json_peername := Peername id;
                 json_private_key := pKey;
                 json_secret := EncodeProtectorKey (Secret id) |}, None)
    end.

(** [ToJSON] generates a human-friendly version of the identity: the
    bytes ([None] for a nil slice) and the error. *)
Definition ToJSON (id : Identity) : exec (slice * option error) :=
  match toIdentityJSON id with
  | Panicked r => Panicked r
  | Done (_, Some err) => Done (None, Some err)
  | Done (jID, None) =>
      match json_MarshalIndent jID with
      | inl err => Done (None, Some err)
      | inr raw => Done (Some raw, None)
      end
  end.

(** [ApplyEnvVars] fills in any fields found as environment variables. *)
Definition ApplyEnvVars (w : World) (id : Identity)
    : exec (Identity * option error) :=
  match toIdentityJSON id with
  | Panicked r => Panicked r
  | Done (_, Some err) => Done (id, Some err)
  | Done (jID, None) =>
      match envconfig.Process (os_LookupEnv w) "CLUSTER" jID with
      | (_, Some err) => Done (id, Some err)
      | (jID', None) => Done (applyConfigJSON jID' id)
      end
  end.

(** *** The receiver after each step of [applyConfigJSON] and [LoadJSON] *)
Definition after_ID (jID : identityJSON) (pid : string) (id : Identity)
    : Identity :=
  {| ID := pid; PrivateKey := PrivateKey id;
     Peername := SetIfNotDefault (json_peername jID) (Peername id);
     Secret := Secret id |}.

Definition after_PrivateKey (jID : identityJSON) (pid : string)
    (pKey : PrivKey) (id : Identity) : Identity :=
  {| ID := pid; PrivateKey := Some pKey;
     Peername := SetIfNotDefault (json_peername jID) (Peername id);
     Secret := Secret id |}.

Definition after_Secret (jID : identityJSON) (pid : string)
    (pKey : PrivKey) (s : slice) (id : Identity) : Identity :=
  {| ID := pid; PrivateKey := Some pKey;
     Peername := SetIfNotDefault (json_peername jID) (Peername id);
     Secret := s |}.

Definition with_Peername (name : string) (id : Identity) : Identity :=
  {| ID := ID id; PrivateKey := PrivateKey id; Peername := name;
     Secret := Secret id |}.

End Package.

(** ** What is assumed of the collaborators

    The package relies on these facts about libp2p and encoding/base64:
    a peer ID derived from a public key is not empty and is read back from
    its own string form, base64 text decodes to the bytes it encodes, and
    the canonical bytes of a private key parse to a key with the same
    canonical bytes. *)
Class Lawful (C : Collaborators) : Prop := {
  IDFromPublicKey_set :
    forall pub pid, peer_IDFromPublicKey pub = inr pid -> pid <> "";
  IDFromPublicKey_Pretty :
    forall pub pid,
      peer_IDFromPublicKey pub = inr pid ->
      peer_IDB58Decode (ID_Pretty pid) = inr pid;
  base64_Decode_Encode :
    forall bs, base64_DecodeString (base64_EncodeToString bs) = inr bs;
  UnmarshalPrivateKey_Bytes :
    forall k bs,
      PrivKey_Bytes k = Done (inr bs) ->
      exists k', crypto_UnmarshalPrivateKey bs = inr k'
                 /\ PrivKey_Bytes k' = Done (inr bs)
}.

(** The identity is one that [Default] or [LoadJSON] can have built: its
    ID is set and is read back from its string form, its key is set and
    gives its canonical bytes [bs], and its secret is empty or has 32
    bytes. *)
Definition well_formed {C : Collaborators} (id : Identity) (bs : bytes) : Prop :=
  ID id <> ""
  /\ peer_IDB58Decode (ID_Pretty (ID id)) = inr (ID id)
  /\ (exists k, PrivateKey id = Some k /\ PrivKey_Bytes k = Done (inr bs))
  /\ (len (Secret id) = 0 \/ len (Secret id) = 32).

(** The private key of [id] is set and has the canonical bytes [bs]. *)
Definition key_bytes {C : Collaborators} (id : Identity) (bs : bytes) : Prop :=
  exists k, PrivateKey id = Some k /\ PrivKey_Bytes k = Done (inr bs).

(** [json.Unmarshal] reads back from [raw] the document of [id], the one
    [toIdentityJSON] builds and [json.MarshalIndent] writes. Go's encoder
    is lossless on text that is valid UTF-8. *)
Definition reads_back {C : Collaborators} (id : Identity) (raw : bytes) : Prop :=
  exists jID,
    toIdentityJSON id = Done (jID, None) /\ json_Unmarshal raw = inr jID.

(** None of the four variables of the overlay is set. *)
Definition no_variables {C : Collaborators} (w : World) : Prop :=
  os_LookupEnv w "CLUSTER_ID" = None
  /\ os_LookupEnv w "CLUSTER_PEERNAME" = None
  /\ os_LookupEnv w "CLUSTER_PRIVATEKEY" = None
  /\ os_LookupEnv w "CLUSTER_SECRET" = None.

(** ** Hexadecimal text *)

(** The characters [hex.Decode] accepts: [0-9], [a-f] and [A-F]. *)
Definition is_hex (c : ascii) : bool :=
  match hex.fromHexChar c with
  | Some _ => true
  | None => false
  end.

Fixpoint all_hex (s : string) : bool :=
  match s with
  | EmptyString => true
  | String c rest => is_hex c && all_hex rest
  end.

(** ** Saving and removing the identity file

    The calls the package makes to the file system, in order, with the
    arguments it passes. What [ioutil.WriteFile] returns is given by
    [answer]; the result of [os.Remove] is dropped by [Clean]. *)
Inductive fs_call : Type :=
| WriteFile (path : string) (data : bytes) (perm : N)
| Remove (path : string).

(** The permission bits [0600]. *)
Definition perm_0600 : N := 6 * 64.

(** [SaveJSON] saves the JSON representation of the identity to the given
    path: the calls made and the returned error. *)
Definition SaveJSON {C : Collaborators} (answer : fs_call -> option error)
    (path : string) (id : Identity) : exec (list fs_call * option error) :=
  match ToJSON id with
  | Panicked r => Panicked r
  | Done (_, Some err) => Done ([], Some err)
  | Done (bs, None) =>
      let call := WriteFile path (elements bs) perm_0600 in
      Done ([call], answer call)
  end.

(** [Clean] removes the file at the given path. *)
Definition Clean (path : string) : list fs_call := [Remove path].

(** The world [w] with another answer of [os.Hostname]. *)
Definition with_Hostname {C : Collaborators} (h : result string) (w : World)
    : World :=
  {| os_Hostname := h;
     crypto_GenerateKeyPair := crypto_GenerateKeyPair w;
     pnet_GenerateV1Bytes := pnet_GenerateV1Bytes w;
     os_LookupEnv := os_LookupEnv w |}.

(** The world [w] with other answers of the random sources. *)
Definition with_sources {C : Collaborators}
    (keys : result (PrivKey * PubKey)) (secret : result (Vector.t byte 32))
    (w : World) : World :=
  {| os_Hostname := os_Hostname w;
     crypto_GenerateKeyPair := fun _ _ => keys;
     pnet_GenerateV1Bytes := secret;
     os_LookupEnv := os_LookupEnv w |}.

(** The world [w] with the variables [CLUSTER_PEERNAME] and
    [CLUSTER_SECRET] as given and the other two not set. *)
Definition with_variables {C : Collaborators}
    (peername secret : option string) (w : World) : World :=
  {| os_Hostname := os_Hostname w;
     crypto_GenerateKeyPair := crypto_GenerateKeyPair w;
     pnet_GenerateV1Bytes := pnet_GenerateV1Bytes w;
     os_LookupEnv := fun name =>
       if String.eqb name "CLUSTER_PEERNAME" then peername
       else if String.eqb name "CLUSTER_SECRET" then secret
       else None |}.

(** ** An executable instance of the collaborators

    Stand-ins with the same interfaces, small enough to evaluate: a key is
    its own byte string (the empty one has no encoding, one that starts
    with [0xff] makes [Bytes] panic), a peer ID is ["Qm"] followed by the
    hex text of the public key and is its own string form, the key text is
    hex instead of base64, and a document is written as four lines. *)
Module Model.

Definition Bytes (k : bytes) : exec (result bytes) :=
  match k with
  | [] => Done (inl (errors_New "empty key"))
  | xff :: _ => Panicked (errors_New "corrupt key")
  | _ :: _ => Done (inr k)
  end.

Definition UnmarshalPrivateKey (bs : bytes) : result bytes :=
  match Bytes bs with
  | Done (inr _) => inr bs
  | _ => inl (errors_New "malformed key")
  end.

Definition IDFromPublicKey (pub : bytes) : result string :=
  inr ("Qm" ++ hex.EncodeToString pub)%string.

Definition IDB58Decode (s : string) : result string :=
  match s with
  | String "Q" (String "m" _) => inr s
  | _ => inl (errors_New "multihash too short")
  end.

Definition text_Decode (s : string) : result bytes :=
  match hex.DecodeString s with
  | (_, Some err) => inl err
  | (bs, None) => inr bs
  end.

Definition newline : ascii := "010"%char.

Fixpoint lines (s : string) : list string :=
  match s with
  | EmptyString => [EmptyString]
  | String c rest =>
      if Ascii.eqb c newline then EmptyString :: lines rest
      else
        match lines rest with
        | [] => [String c EmptyString]
        | l :: ls => String c l :: ls
        end
  end.

Definition Marshal (jID : identityJSON) : result bytes :=
  inr (list_byte_of_string
         (json_id jID ++ String newline
            (json_peername jID ++ String newline
               (json_private_key jID ++ String newline (json_secret jID)))))%string.

Definition Unmarshal (raw : bytes) : result identityJSON :=
  match lines (string_of_list_byte raw) with
  | [i; n; k; s] =>
      inr {| json_id := i; json_peername := n; json_private_key := k;
             json_secret := s |}
  | _ => inl (errors_New "unexpected end of JSON input")
  end.

Definition collaborators : Collaborators :=
  {| PrivKey := bytes;
     PubKey := bytes;
     PrivKey_Bytes := Bytes;
     crypto_UnmarshalPrivateKey := UnmarshalPrivateKey;
     peer_IDFromPublicKey := IDFromPublicKey;
     peer_IDB58Decode := IDB58Decode;
     ID_Pretty := fun pid => pid;
     base64_EncodeToString := hex.EncodeToString;
     base64_DecodeString := text_Decode;
     json_MarshalIndent := Marshal;
     json_Unmarshal := Unmarshal |}.

Definition secret32 : Vector.t byte 32 := Vector.const x2a 32.

Definition key : @PrivKey collaborators := ([x01; x02; x03] : bytes).

(** A key whose [Bytes] panics, and a second sound key. *)
Definition corrupt_key : @PrivKey collaborators := ([xff; x01] : bytes).

Definition short_key : @PrivKey collaborators := ([x01; x02] : bytes).

Definition keypair : result (@PrivKey collaborators * @PubKey collaborators) :=
  inr (key, ([x0a; x0b] : bytes)).

(** A host called node0, a key pair, a secret, no variables set. *)
Definition world : @World collaborators :=
  {| os_Hostname := inr "node0";
     crypto_GenerateKeyPair := fun _ _ => keypair;
     pnet_GenerateV1Bytes := inr secret32;
     os_LookupEnv := fun _ => None |}.

(** The same host with the four variables set to the empty string. *)
Definition world_empty_vars : @World collaborators :=
  {| os_Hostname := inr "node0";
     crypto_GenerateKeyPair := fun _ _ => keypair;
     pnet_GenerateV1Bytes := inr secret32;
     os_LookupEnv := fun name =>
       if existsb (String.eqb name)
            ["CLUSTER_ID"; "CLUSTER_PEERNAME"; "CLUSTER_PRIVATEKEY";
             "CLUSTER_SECRET"]
       then Some "" else None |}.

(** The same host with only the secret's variable set, to the empty
    string. *)
Definition world_empty_secret : @World collaborators :=
  {| os_Hostname := inr "node0";
     crypto_GenerateKeyPair := fun _ _ => keypair;
     pnet_GenerateV1Bytes := inr secret32;
     os_LookupEnv := fun name =>
       if String.eqb name "CLUSTER_SECRET" then Some "" else None |}.

(** The value of [&Identity{}]. *)
Definition blank : @Identity collaborators :=
  {| ID := ""; PrivateKey := None; Peername := ""; Secret := None |}.

(** The identity [Default] generates in [world]. *)
Definition generated : @Identity collaborators := fst (Default world blank).

(** The bytes [ToJSON] writes for it. *)
Definition encoded : bytes :=
  match ToJSON generated with
  | Done (Some raw, _) => raw
  | _ => []
  end.

(** An identity loaded earlier, under another name. *)
Definition named : @Identity collaborators :=
  {| ID := "Qm0a0b"; PrivateKey := Some key;
     Peername := "alice"; Secret := None |}.

(** An identity whose key is the corrupt one. *)
Definition corrupt : @Identity collaborators :=
  {| ID := "Qm0a0b"; PrivateKey := Some corrupt_key;
     Peername := "node0"; Secret := None |}.

Definition document (i n k s : string) : bytes :=
  match Marshal {| json_id := i; json_peername := n; json_private_key := k;
                   json_secret := s |} with
  | inr raw => raw
  | inl _ => []
  end.

(** A secret of 32 bytes written with upper-case digits. *)
Definition secret_text : string :=
  "000102030405060708090A0B0C0D0E0F101112131415161718191A1B1C1D1E1F".

(** A disk that is full. *)
Definition disk_full (call : fs_call) : option error :=
  Some (errors_New "no space left on device").

(** The identity with a 32-byte secret replaced by an empty non-nil one. *)
Definition open_network : @Identity collaborators :=
  {| ID := "Qm0a0b"; PrivateKey := Some key;
     Peername := "node0"; Secret := Some [] |}.

(** A key that has no encoding, and an identity with it. *)
Definition empty_key : @PrivKey collaborators := ([] : bytes).

Definition unreadable : @Identity collaborators :=
  {| ID := "Qm0a0b"; PrivateKey := Some empty_key;
     Peername := "node0"; Secret := None |}.

End Model.

(** * Properties *)

(** ** Hex codec *)

Lemma hex_Decode_pair (v : byte) (rest : string) :
  hex.Decode
    (String (hex.hexdigit (N.shiftr (Byte.to_N v) 4))
       (String (hex.hexdigit (N.land (Byte.to_N v) 15)) rest))
  = (v :: fst (hex.Decode rest), snd (hex.Decode rest)).
Proof.
  destruct v; cbn [hex.Decode]; destruct (hex.Decode rest); reflexivity.
Qed.

Lemma hex_Decode_EncodeToString (l : bytes) :
  hex.Decode (hex.EncodeToString l) = (l, None).
Proof.
  induction l as [|v l IH].
  - reflexivity.
  - cbn [hex.EncodeToString]. rewrite hex_Decode_pair, IH. reflexivity.
Qed.

Lemma hex_EncodeToString_length (l : bytes) :
  String.length (hex.EncodeToString l) = 2 * List.length l.
Proof.
  induction l as [|v l IH]; cbn [hex.EncodeToString String.length List.length].
  - reflexivity.
  - rewrite IH. lia.
Qed.

Lemma DecodeClusterSecret_Encode (b : slice) :
  DecodeClusterSecret (EncodeProtectorKey b) =
    if Nat.eqb (len b) 0 then inr None
    else if Nat.eqb (len b) 32 then inr (Some (elements b))
    else inl (errors_New ("input secret is " ++ decimal (len b)
                          ++ " bytes, cluster secret should be 32")%string).
Proof.
  unfold DecodeClusterSecret, EncodeProtectorKey, hex.DecodeString, len.
  rewrite hex_Decode_EncodeToString. reflexivity.
Qed.

Example DecodeClusterSecret_empty : DecodeClusterSecret "" = inr None.
Proof. reflexivity. Qed.

Example DecodeClusterSecret_one_byte :
  DecodeClusterSecret "00"
  = inl (errors_New "input secret is 1 bytes, cluster secret should be 32").
Proof. reflexivity. Qed.

Example DecodeClusterSecret_not_hex :
  DecodeClusterSecret "0g" = inl (hex_InvalidByteError "g")
  /\ DecodeClusterSecret "abc" = inl hex_ErrLength.
Proof. split; reflexivity. Qed.

Example hex_DecodeString_upper_case :
  hex.DecodeString "00FFa1" = ([x00; xff; xa1], None)
  /\ hex.EncodeToString [x00; xff; xa1] = "00ffa1".
Proof. split; reflexivity. Qed.

Example envconfig_keys :
  List.map (envconfig.Key "CLUSTER") ["ID"; "Peername"; "PrivateKey"; "Secret"]
  = ["CLUSTER_ID"; "CLUSTER_PEERNAME"; "CLUSTER_PRIVATEKEY"; "CLUSTER_SECRET"].
Proof. reflexivity. Qed.

(** What a successful [DecodeClusterSecret] can return. *)
Lemma DecodeClusterSecret_ok (h : string) (s : slice) :
  DecodeClusterSecret h = inr s ->
  s = None \/ exists l, s = Some l /\ List.length l = 32.
Proof.
  unfold DecodeClusterSecret.
  destruct (hex.DecodeString h) as [secret [err|]]; [discriminate|].
  cbv zeta.
  destruct (Nat.eqb (List.length secret) 0) eqn:E0.
  - intros H; inversion H; auto.
  - destruct (Nat.eqb (List.length secret) 32) eqn:E32; [|discriminate].
    intros H; inversion H; subst. right. exists secret.
    apply Nat.eqb_eq in E32. auto.
Qed.

(** C2. Secret length law: for a byte sequence of length 0 or 32,
    [DecodeClusterSecret (EncodeProtectorKey b)] succeeds with the bytes
    of [b] (the very slice [b] when it has 32 bytes, nil when it is
    empty); for any other length it fails with the error whose message
    gives the actual length and the expected 32; [EncodeProtectorKey] is
    a total function, its output two characters per byte. *)
Theorem secret_length_law (b : slice) :
  (len b = 0 \/ len b = 32 ->
   exists s, DecodeClusterSecret (EncodeProtectorKey b) = inr s
             /\ elements s = elements b
             /\ (len b = 32 -> s = b)) /\
  (len b <> 0 -> len b <> 32 ->
   DecodeClusterSecret (EncodeProtectorKey b) =
     inl (errors_New ("input secret is " ++ decimal (len b)
                      ++ " bytes, cluster secret should be 32")%string)) /\
  String.length (EncodeProtectorKey b) = 2 * len b.
Proof.
  rewrite DecodeClusterSecret_Encode. repeat split.
  - intros [H|H]; rewrite H; cbn [Nat.eqb].
    + exists None. repeat split; [|congruence].
      unfold len in H. destruct (elements b); [reflexivity|discriminate].
    + exists (Some (elements b)). repeat split.
      intros _. destruct b as [l|]; [reflexivity|discriminate].
  - intros H0 H32.
    apply Nat.eqb_neq in H0, H32. rewrite H0, H32. reflexivity.
  - apply hex_EncodeToString_length.
Qed.

(** ** The methods in state-passing form *)

Section Equations.

Context {C : Collaborators}.

Lemma applyConfigJSON_eq (jID : identityJSON) (id : Identity) :
  applyConfigJSON jID id =
    match peer_IDB58Decode (json_id jID) with
    | inl err => (id, Some (fmt_Errorf "error decoding cluster ID: " err))
    | inr pid =>
        match base64_DecodeString (json_private_key jID) with
        | inl err =>
            (after_ID jID pid id,
             Some (fmt_Errorf "error decoding private_key: " err))
        | inr pkb =>
            match crypto_UnmarshalPrivateKey pkb with
            | inl err =>
                (after_ID jID pid id,
                 Some (fmt_Errorf "error parsing private_key ID: " err))
            | inr pKey =>
                match DecodeClusterSecret (json_secret jID) with
                | inl err =>
                    (after_PrivateKey jID pid pKey id,
                     Some (fmt_Errorf
                             "error loading cluster secret from config: " err))
                | inr s =>
                    (after_Secret jID pid pKey s id,
                     Validate (after_Secret jID pid pKey s id))
                end
            end
        end
    end.
Proof.
  unfold applyConfigJSON, applyConfigJSON_body, run, bind, try_wrap, set_ID,
    set_Peername, set_PrivateKey, set_Secret, get_Peername, Validate_method.
  destruct (peer_IDB58Decode (json_id jID)) as [e|pid]; [reflexivity|].
  destruct (base64_DecodeString (json_private_key jID)) as [e|pkb];
    [reflexivity|].
  destruct (crypto_UnmarshalPrivateKey pkb) as [e|pKey]; [reflexivity|].
  destruct (DecodeClusterSecret (json_secret jID)) as [e|s]; [reflexivity|].
  cbn [ID PrivateKey Peername Secret]. unfold after_Secret.
  destruct (Validate _); reflexivity.
Qed.

Lemma LoadJSON_eq (w : World) (raw : bytes) (id : Identity) :
  LoadJSON w raw id =
    match json_Unmarshal raw with
    | inl err => (id, Some err)
    | inr jID => applyConfigJSON jID (with_Peername (hostname_or_empty w) id)
    end.
Proof.
  unfold LoadJSON. destruct (json_Unmarshal raw) as [e|jID]; [reflexivity|].
  unfold applyConfigJSON, run, bind, set_Peername, with_Peername.
  reflexivity.
Qed.

Lemma Default_eq (w : World) (id : Identity) :
  Default w id =
    match crypto_GenerateKeyPair w DefaultConfigCrypto DefaultConfigKeyLength with
    | inl err => (with_Peername (hostname_or_empty w) id, Some err)
    | inr (priv, pub) =>
        match peer_IDFromPublicKey pub with
        | inl err => (with_Peername (hostname_or_empty w) id, Some err)
        | inr pid =>
            match pnet_GenerateV1Bytes w with
            | inl err =>
                ({| ID := pid; PrivateKey := Some priv;
                    Peername := hostname_or_empty w; Secret := Secret id |},
                 Some err)
            | inr clusterSecret =>
                ({| ID := pid; PrivateKey := Some priv;
                    Peername := hostname_or_empty w;
                    Secret := Some (Vector.to_list clusterSecret) |}, None)
            end
        end
    end.
Proof.
  unfold Default, Default_body, run, bind, try, set_ID, set_Peername,
    set_PrivateKey, set_Secret, ret, with_Peername.
  destruct (crypto_GenerateKeyPair w _ _) as [e|[priv pub]]; [reflexivity|].
  cbn [fst snd].
  destruct (peer_IDFromPublicKey pub) as [e|pid]; [reflexivity|].
  destruct (pnet_GenerateV1Bytes w) as [e|v]; reflexivity.
Qed.

Lemma Default_ok (w : World) (id id' : Identity) :
  Default w id = (id', None) ->
  exists priv pub pid clusterSecret,
    crypto_GenerateKeyPair w DefaultConfigCrypto DefaultConfigKeyLength
      = inr (priv, pub)
    /\ peer_IDFromPublicKey pub = inr pid
    /\ pnet_GenerateV1Bytes w = inr clusterSecret
    /\ id' = {| ID := pid; PrivateKey := Some priv;
                Peername := hostname_or_empty w;
                Secret := Some (Vector.to_list clusterSecret) |}.
Proof.
  rewrite Default_eq.
  destruct (crypto_GenerateKeyPair w _ _) as [e|[priv pub]]; [discriminate|].
  destruct (peer_IDFromPublicKey pub) as [e|pid] eqn:Hpid; [discriminate|].
  destruct (pnet_GenerateV1Bytes w) as [e|v]; [discriminate|].
  intros H. inversion H. exists priv, pub, pid, v. repeat split. exact Hpid.
Qed.

Lemma toIdentityJSON_eq (id : Identity) :
  toIdentityJSON id =
    match PrivateKey_Bytes (PrivateKey id) with
    | Panicked r => Done (identityJSON_zero, Some (fmt_Errorf "" r))
    | Done (inl err) => Done (identityJSON_zero, Some err)
    | Done (inr pkeyBytes) =>
        Done ({| json_id := ID_Pretty (ID id);
                 json_peername := Peername id;
                 json_private_key := base64_EncodeToString pkeyBytes;
                 json_secret := EncodeProtectorKey (Secret id) |}, None)
    end.
Proof.
  unfold toIdentityJSON, defer_recover.
  destruct (PrivateKey_Bytes (PrivateKey id)) as [[e|bs]|r]; reflexivity.
Qed.

End Equations.

(** ** The executable instance satisfies the assumptions *)

Lemma Model_Bytes_ok (k bs : bytes) :
  Model.Bytes k = Done (inr bs) -> bs = k /\ Model.UnmarshalPrivateKey k = inr k.
Proof.
  unfold Model.UnmarshalPrivateKey.
  destruct k as [|b k']; [discriminate|].
  destruct b; cbn [Model.Bytes]; intros H; inversion H; split; reflexivity.
Qed.

Lemma Model_lawful : Lawful Model.collaborators.
Proof.
  constructor; cbn.
  - intros pub pid H. inversion H. discriminate.
  - intros pub pid H. inversion H. reflexivity.
  - intros bs. unfold Model.text_Decode, hex.DecodeString.
    rewrite hex_Decode_EncodeToString. reflexivity.
  - intros k bs H. destruct (Model_Bytes_ok _ H) as [-> HU].
    exists k. split; assumption.
Qed.

(** ** Validation *)

Section Validation.

Context {C : Collaborators}.

(** C3. Validation law: [Validate] returns an error exactly when the ID
    is empty or the private key is nil; the error is the one of the ID
    whenever the ID is empty (also when the key is missing too) and the
    one of the key otherwise; the result depends on no other field, so
    neither the secret nor the peer name can make it fail. *)
Theorem validation_law (id : Identity) :
  (Validate id <> None <-> ID id = "" \/ PrivateKey id = None) /\
  (ID id = "" -> Validate id = Some (errors_New "cluster.ID not set")) /\
  (ID id <> "" -> PrivateKey id = None ->
   Validate id = Some (errors_New "no cluster.private_key set")) /\
  (forall (peername : string) (secret : slice),
     Validate {| ID := ID id; PrivateKey := PrivateKey id;
                 Peername := peername; Secret := secret |} = Validate id).
Proof.
  unfold Validate. cbn [ID PrivateKey].
  destruct (String.eqb_spec (ID id) "") as [E|E];
    destruct (PrivateKey id) as [k|]; repeat split;
    try congruence; auto; try tauto.
  intros [H|H]; congruence.
Qed.

Lemma Validate_None (id : Identity) :
  Validate id = None <-> ID id <> "" /\ PrivateKey id <> None.
Proof.
  unfold Validate.
  destruct (String.eqb_spec (ID id) "") as [E|E];
    destruct (PrivateKey id) as [k|]; split; intros H;
    try discriminate; try (destruct H; congruence); split; congruence.
Qed.

End Validation.

(** ** Generation *)

Section Generation.

Context {C : Collaborators} {L : Lawful C}.

(** C4. Generation yields validity: whenever [Default] returns no error,
    the identity it leaves passes [Validate] (its ID is not empty, its
    private key is not nil) and its secret has exactly 32 bytes. *)
Theorem generation_valid (w : World) (id id' : Identity) :
  Default w id = (id', None) ->
  Validate id' = None
  /\ ID id' <> "" /\ PrivateKey id' <> None
  /\ len (Secret id') = 32.
Proof.
  intros H.
  destruct (Default_ok _ _ H) as (priv & pub & pid & v & _ & Hpid & _ & ->).
  assert (Hne : pid <> "") by (eapply IDFromPublicKey_set; eassumption).
  assert (Hk : Some priv <> None) by discriminate.
  repeat split; try assumption.
  - apply Validate_None. cbn. split; assumption.
  - unfold len. cbn. apply Vector.length_to_list.
Qed.

End Generation.

Lemma generation_valid_witness :
  Default Model.world Model.blank = (Model.generated, None)
  /\ Validate Model.generated = None
  /\ len (Secret Model.generated) = 32.
Proof.
  assert (H : Default Model.world Model.blank = (Model.generated, None))
    by (vm_compute; reflexivity).
  split; [exact H|].
  destruct (@generation_valid _ Model_lawful _ _ _ H) as (Hv & _ & _ & Hs).
  split; assumption.
Defined.

(** ** Encoding never panics *)

Section Encoding.

Context {C : Collaborators}.

(** C7. If retrieving the canonical bytes of the private key panics with
    a value [r], [ToJSON] returns normally: no output (a nil slice) and
    the error [fmt.Errorf("%s", r)] built by the deferred recovery. *)
Theorem ToJSON_recovers (id : Identity) (k : PrivKey) (r : error) :
  PrivateKey id = Some k ->
  PrivKey_Bytes k = Panicked r ->
  ToJSON id = Done (None, Some (fmt_Errorf "" r)).
Proof.
  intros Hk Hp. unfold ToJSON. rewrite toIdentityJSON_eq, Hk.
  cbn [PrivateKey_Bytes]. rewrite Hp. reflexivity.
Qed.

(** C8. With a nil private key, [ToJSON] returns an error and does not
    panic: the method call on the nil interface panics inside
    [toIdentityJSON] and the deferred recovery turns the panic into the
    returned error; there is no output. *)
Theorem ToJSON_nil_key (id : Identity) :
  PrivateKey id = None ->
  toIdentityJSON id
    = Done (identityJSON_zero, Some (fmt_Errorf "" nil_dereference))
  /\ ToJSON id = Done (None, Some (fmt_Errorf "" nil_dereference)).
Proof.
  intros Hk. unfold ToJSON. rewrite toIdentityJSON_eq, Hk.
  split; reflexivity.
Qed.

End Encoding.

Lemma ToJSON_recovers_witness :
  ToJSON Model.corrupt
  = Done (None, Some (fmt_Errorf "" (errors_New "corrupt key"))).
Proof.
  apply (@ToJSON_recovers Model.collaborators Model.corrupt Model.corrupt_key).
  - reflexivity.
  - reflexivity.
Defined.

Lemma ToJSON_nil_key_witness :
  ToJSON Model.blank = Done (None, Some (fmt_Errorf "" nil_dereference)).
Proof.
  apply (@ToJSON_nil_key Model.collaborators Model.blank). reflexivity.
Defined.

(** ** Decoding and its effect on the receiver *)

Section Decoding.

Context {C : Collaborators}.

(** C5, as amended. When the [id] field of the document is not a valid
    peer ID, [LoadJSON] fails with the error that wraps the parse error;
    the ID, the private key and the secret of the receiver are as before,
    and its peer name is the host name (the empty string when the host
    name cannot be read), which was assigned before the fields were
    applied. *)
Theorem LoadJSON_bad_id (w : World) (raw : bytes) (id : Identity)
    (jID : identityJSON) (e : error) :
  json_Unmarshal raw = inr jID ->
  peer_IDB58Decode (json_id jID) = inl e ->
  LoadJSON w raw id =
    ({| ID := ID id; PrivateKey := PrivateKey id;
        Peername := hostname_or_empty w; Secret := Secret id |},
     Some (fmt_Errorf "error decoding cluster ID: " e)).
Proof.
  intros Hj He. rewrite LoadJSON_eq, Hj, applyConfigJSON_eq, He. reflexivity.
Qed.

(** C9. [LoadJSON] is not atomic. On a document that unmarshals, the
    receiver is left as follows when a later step fails. The peer name is
    first set to what [os.Hostname] answers, the empty string if it
    fails. On a bad ID nothing else has changed. On bad base64 or an
    unparseable key, the ID is the newly decoded one and the peer name is
    the one of the document, or that host name if the document has none;
    on a bad secret the private key is the new one as well. In each case
    the fields not yet reached keep their old values. *)
Theorem LoadJSON_not_atomic (w : World) (raw : bytes) (id : Identity)
    (jID : identityJSON) :
  json_Unmarshal raw = inr jID ->
  let hostname :=
    match os_Hostname w with
    | inl _ => ""
    | inr answer => answer
    end in
  let name :=
    if String.eqb (json_peername jID) "" then hostname
    else json_peername jID in
  (forall e,
     peer_IDB58Decode (json_id jID) = inl e ->
     LoadJSON w raw id =
       ({| ID := ID id; PrivateKey := PrivateKey id;
           Peername := hostname; Secret := Secret id |},
        Some (fmt_Errorf "error decoding cluster ID: " e))) /\
  (forall pid e,
     peer_IDB58Decode (json_id jID) = inr pid ->
     base64_DecodeString (json_private_key jID) = inl e ->
     LoadJSON w raw id =
       ({| ID := pid; PrivateKey := PrivateKey id;
           Peername := name; Secret := Secret id |},
        Some (fmt_Errorf "error decoding private_key: " e))) /\
  (forall pid pkb e,
     peer_IDB58Decode (json_id jID) = inr pid ->
     base64_DecodeString (json_private_key jID) = inr pkb ->
     crypto_UnmarshalPrivateKey pkb = inl e ->
     LoadJSON w raw id =
       ({| ID := pid; PrivateKey := PrivateKey id;
           Peername := name; Secret := Secret id |},
        Some (fmt_Errorf "error parsing private_key ID: " e))) /\
  (forall pid pkb pKey e,
     peer_IDB58Decode (json_id jID) = inr pid ->
     base64_DecodeString (json_private_key jID) = inr pkb ->
     crypto_UnmarshalPrivateKey pkb = inr pKey ->
     DecodeClusterSecret (json_secret jID) = inl e ->
     LoadJSON w raw id =
       ({| ID := pid; PrivateKey := Some pKey;
           Peername := name; Secret := Secret id |},
        Some (fmt_Errorf "error loading cluster secret from config: " e))).
Proof.
  intros Hj hostname name. rewrite LoadJSON_eq, Hj, applyConfigJSON_eq.
  assert (Hh : hostname_or_empty w = hostname) by reflexivity.
  assert (Hn : SetIfNotDefault (json_peername jID) hostname = name)
    by reflexivity.
  unfold after_ID, after_PrivateKey, with_Peername.
  cbn [ID PrivateKey Peername Secret]. rewrite Hh, Hn.
  repeat split.
  - intros e H1. rewrite H1. reflexivity.
  - intros pid e H1 H2. rewrite H1, H2. reflexivity.
  - intros pid pkb e H1 H2 H3. rewrite H1, H2, H3. reflexivity.
  - intros pid pkb pKey e H1 H2 H3 H4. rewrite H1, H2, H3, H4. reflexivity.
Qed.

End Decoding.

(** C5, as stated, fails: the receiver was called alice, the document has
    the id "not-a-valid-id", and after the failed [LoadJSON] the receiver
    is called node0, the host name. *)
Lemma LoadJSON_bad_id_changes_Peername :
  let raw := Model.document "not-a-valid-id" "bob" "010203" "" in
  let after := LoadJSON Model.world raw Model.named in
  snd after = Some (fmt_Errorf "error decoding cluster ID: "
                      (errors_New "multihash too short"))
  /\ Peername Model.named = "alice"
  /\ Peername (fst after) = "node0"
  /\ fst after <> Model.named.
Proof.
  cbv zeta. repeat split; try (vm_compute; reflexivity).
  vm_compute. intros H. inversion H.
Qed.

Lemma LoadJSON_bad_id_witness :
  LoadJSON Model.world (Model.document "not-a-valid-id" "bob" "010203" "")
    Model.named
  = ({| ID := "Qm0a0b"; PrivateKey := Some Model.key;
        Peername := "node0"; Secret := None |},
     Some (fmt_Errorf "error decoding cluster ID: "
             (errors_New "multihash too short"))).
Proof.
  apply (@LoadJSON_bad_id Model.collaborators Model.world _ Model.named
           {| json_id := "not-a-valid-id"; json_peername := "bob";
              json_private_key := "010203"; json_secret := "" |}).
  - vm_compute. reflexivity.
  - reflexivity.
Defined.

(** Three failed runs on the receiver called alice. On the host node0,
    a document with a bad id leaves only the new name node0; a document
    without a peer name, with a good id and key and a secret of one byte,
    leaves the new ID, the name node0 and the new key with the old
    secret. Where the host name cannot be read, the same document leaves
    the empty name. *)
Lemma LoadJSON_not_atomic_witness :
  LoadJSON Model.world (Model.document "bad" "bob" "0102" "") Model.named
  = ({| ID := "Qm0a0b"; PrivateKey := Some Model.key;
        Peername := "node0"; Secret := None |},
     Some (fmt_Errorf "error decoding cluster ID: "
             (errors_New "multihash too short")))
  /\ LoadJSON Model.world (Model.document "Qm77" "" "0102" "00") Model.named
     = ({| ID := "Qm77"; PrivateKey := Some Model.short_key;
           Peername := "node0"; Secret := None |},
        Some (fmt_Errorf "error loading cluster secret from config: "
                (errors_New
                   "input secret is 1 bytes, cluster secret should be 32")))
  /\ LoadJSON (with_Hostname (inl (errors_New "no host name")) Model.world)
       (Model.document "Qm77" "" "0102" "00") Model.named
     = ({| ID := "Qm77"; PrivateKey := Some Model.short_key;
           Peername := ""; Secret := None |},
        Some (fmt_Errorf "error loading cluster secret from config: "
                (errors_New
                   "input secret is 1 bytes, cluster secret should be 32"))).
Proof.
  split; [|split].
  - refine (proj1
      (@LoadJSON_not_atomic Model.collaborators Model.world
         (Model.document "bad" "bob" "0102" "") Model.named
         {| json_id := "bad"; json_peername := "bob";
            json_private_key := "0102"; json_secret := "" |} _) _ _).
    + vm_compute. reflexivity.
    + reflexivity.
  - refine (proj2 (proj2 (proj2
      (@LoadJSON_not_atomic Model.collaborators Model.world
         (Model.document "Qm77" "" "0102" "00") Model.named
         {| json_id := "Qm77"; json_peername := "";
            json_private_key := "0102"; json_secret := "00" |} _)))
      "Qm77" [x01; x02] Model.short_key _ _ _ _ _).
    + vm_compute. reflexivity.
    + reflexivity.
    + reflexivity.
    + reflexivity.
    + reflexivity.
  - refine (proj2 (proj2 (proj2
      (@LoadJSON_not_atomic Model.collaborators
         (with_Hostname (inl (errors_New "no host name")) Model.world)
         (Model.document "Qm77" "" "0102" "00") Model.named
         {| json_id := "Qm77"; json_peername := "";
            json_private_key := "0102"; json_secret := "00" |} _)))
      "Qm77" [x01; x02] Model.short_key _ _ _ _ _).
    + vm_compute. reflexivity.
    + reflexivity.
    + reflexivity.
    + reflexivity.
    + reflexivity.
Defined.

(** ** Successful decoding *)

Section Success.

Context {C : Collaborators}.

Lemma applyConfigJSON_ok (jID : identityJSON) (id id' : Identity) :
  applyConfigJSON jID id = (id', None) ->
  exists pid pkb pKey s,
    peer_IDB58Decode (json_id jID) = inr pid
    /\ base64_DecodeString (json_private_key jID) = inr pkb
    /\ crypto_UnmarshalPrivateKey pkb = inr pKey
    /\ DecodeClusterSecret (json_secret jID) = inr s
    /\ id' = after_Secret jID pid pKey s id
    /\ pid <> "".
Proof.
  rewrite applyConfigJSON_eq.
  destruct (peer_IDB58Decode (json_id jID)) as [e|pid] eqn:H1; [discriminate|].
  destruct (base64_DecodeString (json_private_key jID)) as [e|pkb] eqn:H2;
    [discriminate|].
  destruct (crypto_UnmarshalPrivateKey pkb) as [e|pKey] eqn:H3; [discriminate|].
  destruct (DecodeClusterSecret (json_secret jID)) as [e|s] eqn:H4;
    [discriminate|].
  intros H. inversion H as [[Hid Hv]].
  exists pid, pkb, pKey, s. repeat split; try assumption; try reflexivity.
  apply Validate_None in Hv. apply Hv.
Qed.

Lemma applyConfigJSON_Secret (jID : identityJSON) (id id' : Identity) :
  applyConfigJSON jID id = (id', None) ->
  DecodeClusterSecret (json_secret jID) = inr (Secret id').
Proof.
  intros H. apply applyConfigJSON_ok in H.
  destruct H as (pid & pkb & pKey & s & _ & _ & _ & Hs & -> & _).
  exact Hs.
Qed.

Lemma ToJSON_ok (id : Identity) (raw : bytes) :
  ToJSON id = Done (Some raw, None) ->
  exists k bs,
    PrivateKey id = Some k
    /\ PrivKey_Bytes k = Done (inr bs)
    /\ toIdentityJSON id =
         Done ({| json_id := ID_Pretty (ID id);
                  json_peername := Peername id;
                  json_private_key := base64_EncodeToString bs;
                  json_secret := EncodeProtectorKey (Secret id) |}, None).
Proof.
  unfold ToJSON. intros H.
  pose proof (toIdentityJSON_eq id) as E.
  destruct (PrivateKey id) as [k|]; cbn [PrivateKey_Bytes] in E.
  - destruct (PrivKey_Bytes k) as [[e|bs]|r] eqn:Hb; rewrite E in H;
      try discriminate.
    exists k, bs. repeat split; assumption.
  - rewrite E in H. discriminate.
Qed.

(** C10. After a successful [LoadJSON] or [ApplyEnvVars] the secret is nil
    or has exactly 32 bytes, never a non-nil empty slice:
    [DecodeClusterSecret] returns nil for the empty string, which is also
    the encoding of an empty non-nil secret, so reading back the output
    of [ToJSON] for an identity with such a secret leaves a nil secret. *)
Theorem Secret_nil_or_32 :
  (forall w raw (id id' : Identity),
     LoadJSON w raw id = (id', None) ->
     Secret id' = None
     \/ exists l, Secret id' = Some l /\ List.length l = 32) /\
  (forall w (id id' : Identity),
     ApplyEnvVars w id = Done (id', None) ->
     Secret id' = None
     \/ exists l, Secret id' = Some l /\ List.length l = 32) /\
  DecodeClusterSecret "" = inr None /\
  DecodeClusterSecret (EncodeProtectorKey (Some [])) = inr None /\
  (forall w raw (id idr id' : Identity),
     Secret id = Some [] ->
     ToJSON id = Done (Some raw, None) ->
     reads_back id raw ->
     LoadJSON w raw idr = (id', None) ->
     Secret id' = None).
Proof.
  repeat split.
  - intros w raw id id'. rewrite LoadJSON_eq.
    destruct (json_Unmarshal raw) as [e|jID]; [discriminate|].
    intros H. apply applyConfigJSON_Secret in H.
    eapply DecodeClusterSecret_ok; eassumption.
  - intros w id id'. unfold ApplyEnvVars.
    destruct (toIdentityJSON id) as [[jID [e|]]|r]; try discriminate.
    destruct (envconfig.Process _ _ _) as [jID' [e|]]; [discriminate|].
    intros H. inversion H as [H']. apply applyConfigJSON_Secret in H'.
    eapply DecodeClusterSecret_ok; eassumption.
  - intros w raw id idr id' Hs Hj Hr. apply ToJSON_ok in Hj.
    destruct Hj as (k & bs & _ & _ & Hm).
    destruct Hr as (jID & Hd & Hu). rewrite Hm in Hd. inversion Hd; subst jID.
    rewrite LoadJSON_eq, Hu. intros H. apply applyConfigJSON_Secret in H.
    cbn [json_secret] in H. rewrite Hs in H. cbn in H. congruence.
Qed.

End Success.

(** ** Round trips *)

Lemma SetIfNotDefault_same (s : string) : SetIfNotDefault s s = s.
Proof. unfold SetIfNotDefault. destruct (String.eqb s ""); reflexivity. Qed.

Lemma SetIfNotDefault_set (src dest : string) :
  src <> "" -> SetIfNotDefault src dest = src.
Proof.
  unfold SetIfNotDefault. destruct (String.eqb_spec src ""); congruence.
Qed.

Section RoundTrip.

Context {C : Collaborators} {L : Lawful C}.

(** Applying the document that [toIdentityJSON] builds for a sound
    identity [id] to a receiver that has the ID, key and secret fields to
    be overwritten. *)
Lemma applyConfigJSON_own_document (id idr : Identity) (bs : bytes) :
  well_formed id bs ->
  exists k',
    PrivKey_Bytes k' = Done (inr bs)
    /\ applyConfigJSON
         {| json_id := ID_Pretty (ID id);
            json_peername := Peername id;
            json_private_key := base64_EncodeToString bs;
            json_secret := EncodeProtectorKey (Secret id) |} idr
       = ({| ID := ID id; PrivateKey := Some k';
             Peername := SetIfNotDefault (Peername id) (Peername idr);
             Secret := if Nat.eqb (len (Secret id)) 0 then None
                       else Some (elements (Secret id)) |}, None).
Proof.
  intros (Hne & Hid & (k & Hk & Hb) & Hlen).
  destruct (UnmarshalPrivateKey_Bytes _ Hb) as (k' & Hu & Hb').
  exists k'. split; [exact Hb'|].
  rewrite applyConfigJSON_eq. cbn [json_id json_peername json_private_key json_secret].
  rewrite Hid, base64_Decode_Encode, Hu, DecodeClusterSecret_Encode.
  unfold after_Secret. cbn [json_peername].
  destruct Hlen as [H0|H32]; rewrite ?H0, ?H32; cbn [Nat.eqb].
  - f_equal. apply Validate_None. cbn. split; [assumption|discriminate].
  - f_equal. apply Validate_None. cbn. split; [assumption|discriminate].
Qed.


(** C6, as amended. Overlay with no variable set: when none of
    CLUSTER_ID, CLUSTER_PEERNAME, CLUSTER_PRIVATEKEY and CLUSTER_SECRET is
    set, [ApplyEnvVars] on a sound identity (ID set and readable from its
    string form, key set and encodable, secret empty or of 32 bytes)
    returns no error and leaves the same ID, a private key with the same
    canonical bytes, the same peer name and a secret with the same bytes
    (the same slice when it has 32 bytes). *)
Theorem ApplyEnvVars_no_variables (w : World) (id : Identity) (bs : bytes) :
  no_variables w ->
  well_formed id bs ->
  exists id',
    ApplyEnvVars w id = Done (id', None)
    /\ ID id' = ID id
    /\ key_bytes id' bs
    /\ Peername id' = Peername id
    /\ elements (Secret id') = elements (Secret id)
    /\ (len (Secret id) = 32 -> Secret id' = Secret id).
Proof.
  intros (E1 & E2 & E3 & E4) Hwf.
  destruct (applyConfigJSON_own_document id Hwf) as (k' & Hb' & Ha).
  destruct Hwf as (Hne & Hid & (k & Hk & Hb) & Hlen).
  unfold ApplyEnvVars. rewrite toIdentityJSON_eq, Hk.
  cbn [PrivateKey_Bytes]. rewrite Hb.
  unfold envconfig.Process, envconfig.processField.
  change (envconfig.Key "CLUSTER" "ID") with "CLUSTER_ID".
  change (envconfig.Key "CLUSTER" "Peername") with "CLUSTER_PEERNAME".
  change (envconfig.Key "CLUSTER" "PrivateKey") with "CLUSTER_PRIVATEKEY".
  change (envconfig.Key "CLUSTER" "Secret") with "CLUSTER_SECRET".
  rewrite E1, E2, E3, E4.
  cbn [json_id json_peername json_private_key json_secret].
  rewrite Ha. eexists. split; [reflexivity|].
  cbn [ID PrivateKey Peername Secret].
  repeat split.
  - exists k'. split; [reflexivity|assumption].
  - apply SetIfNotDefault_same.
  - unfold len in *.
    destruct Hlen as [H|H]; rewrite H; cbn [Nat.eqb elements];
      [|reflexivity].
    destruct (elements (Secret id)); [reflexivity|discriminate].
  - intros H. rewrite H. cbn [Nat.eqb].
    destruct (Secret id) as [l|]; [reflexivity|discriminate].
Qed.

End RoundTrip.

(** ** Concrete runs *)

Lemma Model_generated_well_formed : well_formed Model.generated Model.key.
Proof.
  repeat split.
  - discriminate.
  - exists Model.key. split; reflexivity.
  - right. reflexivity.
Qed.


Lemma ApplyEnvVars_no_variables_witness :
  exists id',
    ApplyEnvVars Model.world Model.generated = Done (id', None)
    /\ ID id' = ID Model.generated
    /\ Peername id' = Peername Model.generated
    /\ Secret id' = Secret Model.generated.
Proof.
  assert (He : no_variables Model.world) by (repeat split).
  destruct (@ApplyEnvVars_no_variables _ Model_lawful Model.world
              Model.generated Model.key He Model_generated_well_formed)
    as (id' & Ha & Hi & _ & Hp & _ & Hs).
  exists id'. repeat split; try assumption.
  apply Hs. reflexivity.
Defined.

(** C6, as stated, fails when the variables are set to the empty string.
    With all four set and empty the overlay fails, the empty id text is no
    peer ID; with only the secret's variable set and empty the overlay
    succeeds and the 32-byte secret is gone. *)
Lemma ApplyEnvVars_empty_variables :
  well_formed Model.generated Model.key
  /\ Validate Model.generated = None
  /\ (forall name,
        In name ["CLUSTER_ID"; "CLUSTER_PEERNAME"; "CLUSTER_PRIVATEKEY";
                 "CLUSTER_SECRET"] ->
        os_LookupEnv Model.world_empty_vars name = Some "")
  /\ ApplyEnvVars Model.world_empty_vars Model.generated
     = Done (Model.generated,
             Some (fmt_Errorf "error decoding cluster ID: "
                     (errors_New "multihash too short")))
  /\ len (Secret Model.generated) = 32
  /\ ApplyEnvVars Model.world_empty_secret Model.generated
     = Done ({| ID := ID Model.generated;
                PrivateKey := PrivateKey Model.generated;
                Peername := Peername Model.generated;
                Secret := None |}, None).
Proof.
  split; [exact Model_generated_well_formed|].
  split; [reflexivity|].
  split.
  { intros name [<-|[<-|[<-|[<-|[]]]]]; reflexivity. }
  repeat split; vm_compute; reflexivity.
Qed.

Lemma secret_length_law_witness :
  DecodeClusterSecret (EncodeProtectorKey (Some [x00]))
  = inl (errors_New "input secret is 1 bytes, cluster secret should be 32").
Proof.
  apply (proj1 (proj2 (secret_length_law (Some [x00])))); discriminate.
Defined.

Lemma validation_law_witness :
  Validate Model.blank = Some (errors_New "cluster.ID not set").
Proof.
  apply (proj1 (proj2 (validation_law Model.blank))). reflexivity.
Defined.

Lemma Secret_nil_or_32_witness :
  Secret (fst (LoadJSON Model.world Model.encoded Model.named)) = None
  \/ exists l,
       Secret (fst (LoadJSON Model.world Model.encoded Model.named)) = Some l
       /\ List.length l = 32.
Proof.
  apply (proj1 (@Secret_nil_or_32 Model.collaborators) Model.world
           Model.encoded Model.named).
  vm_compute. reflexivity.
Defined.

(** * Further properties *)

(** ** The secret codec on arbitrary text *)

Lemma string_pair_ind (P : string -> Prop) :
  P EmptyString ->
  (forall c, P (String c EmptyString)) ->
  (forall c1 c2 s, P s -> P (String c1 (String c2 s))) ->
  forall s, P s.
Proof.
  intros H0 H1 H2 s.
  assert (H : P s /\ forall c, P (String c s)).
  { induction s as [|c s [IH1 IH2]].
    - split; [exact H0|exact H1].
    - split; [apply IH2|]. intros c'. apply H2. exact IH1. }
  apply H.
Qed.

Lemma is_hex_fromHexChar (c : ascii) :
  is_hex c = true -> exists n, hex.fromHexChar c = Some n.
Proof.
  unfold is_hex. destruct (hex.fromHexChar c) as [n|]; [|discriminate].
  intros _. exists n. reflexivity.
Qed.

Lemma is_hex_false (c : ascii) :
  is_hex c = false -> hex.fromHexChar c = None.
Proof.
  unfold is_hex. destruct (hex.fromHexChar c); [discriminate|reflexivity].
Qed.

(** What [hex.Decode] returns, by the shape of its input. *)
Lemma hex_Decode_cases (s : string) :
  (all_hex s = true -> Nat.even (String.length s) = true ->
   exists l, hex.Decode s = (l, None) /\ 2 * List.length l = String.length s) /\
  (all_hex s = true -> Nat.even (String.length s) = false ->
   exists l, hex.Decode s = (l, Some hex_ErrLength)) /\
  (all_hex s = false ->
   exists l c, hex.Decode s = (l, Some (hex_InvalidByteError (byte_of_ascii c)))
               /\ is_hex c = false).
Proof.
  induction s as [|c|c1 c2 s (IHe & IHo & IHb)] using string_pair_ind.
  - repeat split; try discriminate. intros _ _. exists []. split; reflexivity.
  - cbn [all_hex hex.Decode String.length]. rewrite andb_true_r.
    repeat split; try discriminate.
    + intros Hc _. apply is_hex_fromHexChar in Hc. destruct Hc as [n ->].
      exists []. reflexivity.
    + intros Hc. exists [], c. rewrite (is_hex_false _ Hc). auto.
  - cbn [all_hex hex.Decode String.length].
    change (Nat.even (S (S (String.length s)))) with (Nat.even (String.length s)).
    destruct (is_hex c1) eqn:H1; cbn [andb].
    + destruct (is_hex_fromHexChar _ H1) as [a ->].
      destruct (is_hex c2) eqn:H2; cbn [andb].
      * destruct (is_hex_fromHexChar _ H2) as [b ->].
        repeat split.
        -- intros Ha He. destruct (IHe Ha He) as (l & -> & Hl).
           eexists. split; [reflexivity|]. cbn [List.length]. lia.
        -- intros Ha Ho. destruct (IHo Ha Ho) as (l & ->).
           eexists. reflexivity.
        -- intros Ha. destruct (IHb Ha) as (l & c & -> & Hc).
           eexists; exists c. split; [reflexivity|exact Hc].
      * rewrite (is_hex_false _ H2).
        repeat split; try discriminate.
        intros _. exists [], c2. auto.
    + rewrite (is_hex_false _ H1).
      repeat split; try discriminate.
      intros _. exists [], c1. auto.
Qed.

Lemma hex_Decode_ok (s : string) (l : bytes) :
  hex.Decode s = (l, None) ->
  all_hex s = true /\ String.length s = 2 * List.length l.
Proof.
  intros H. destruct (hex_Decode_cases s) as (He & Ho & Hb).
  destruct (all_hex s) eqn:Ha.
  - destruct (Nat.even (String.length s)) eqn:Hp.
    + destruct (He eq_refl eq_refl) as (l' & Hd & Hl).
      rewrite H in Hd. inversion Hd; subst l'. split; [reflexivity|lia].
    + destruct (Ho eq_refl eq_refl) as (l' & Hd). congruence.
  - destruct (Hb eq_refl) as (l' & c & Hd & _). congruence.
Qed.

(** X1. A secret text that [DecodeClusterSecret] accepts consists of
    hexadecimal characters only and is either empty, giving the nil
    secret, or exactly 64 characters long, giving a non-nil secret of 32
    bytes. *)
Theorem DecodeClusterSecret_accepted (h : string) (s : slice) :
  DecodeClusterSecret h = inr s ->
  all_hex h = true
  /\ ((h = "" /\ s = None)
      \/ (String.length h = 64 /\ exists l, s = Some l /\ List.length l = 32)).
Proof.
  unfold DecodeClusterSecret, hex.DecodeString.
  destruct (hex.Decode h) as [secret [err|]] eqn:Hd; [discriminate|].
  destruct (hex_Decode_ok _ Hd) as (Ha & Hl). cbv zeta.
  destruct (Nat.eqb (List.length secret) 0) eqn:E0.
  - intros H. inversion H. apply Nat.eqb_eq in E0. split; [exact Ha|]. left.
    split; [|reflexivity]. destruct h; [reflexivity|]. cbn in Hl. lia.
  - destruct (Nat.eqb (List.length secret) 32) eqn:E32; [|discriminate].
    intros H. inversion H. apply Nat.eqb_eq in E32. split; [exact Ha|]. right.
    split; [lia|]. exists secret. auto.
Qed.

(** X2. On a text of [2 * n] hexadecimal characters, in lower or upper
    case, [DecodeClusterSecret] decodes [n] bytes and decides by [n]
    alone: nil for 0, the bytes for 32, and otherwise the error that
    reports [n] and the expected 32. *)
Theorem DecodeClusterSecret_hex_text (h : string) (n : nat) :
  all_hex h = true ->
  String.length h = 2 * n ->
  exists l,
    hex.DecodeString h = (l, None) /\ List.length l = n
    /\ DecodeClusterSecret h =
         if Nat.eqb n 0 then inr None
         else if Nat.eqb n 32 then inr (Some l)
         else inl (errors_New ("input secret is " ++ decimal n
                               ++ " bytes, cluster secret should be 32")%string).
Proof.
  intros Ha Hn. destruct (hex_Decode_cases h) as (He & _ & _).
  assert (Hp : Nat.even (String.length h) = true).
  { rewrite Hn. apply Nat.even_spec. exists n. reflexivity. }
  destruct (He Ha Hp) as (l & Hd & Hl).
  assert (Hln : List.length l = n) by lia.
  exists l. unfold DecodeClusterSecret, hex.DecodeString. rewrite Hd.
  cbv zeta. rewrite Hln. repeat split.
Qed.

(** X3. Malformed hexadecimal text is rejected with the error of the hex
    decoder and not with the length error: a character outside
    [0-9a-fA-F] gives [InvalidByteError] for such a character, also when
    the length is odd, and an odd number of hexadecimal characters gives
    [ErrLength]. *)
Theorem DecodeClusterSecret_malformed (h : string) :
  (all_hex h = false ->
   exists c, DecodeClusterSecret h = inl (hex_InvalidByteError (byte_of_ascii c))
             /\ is_hex c = false) /\
  (all_hex h = true -> Nat.even (String.length h) = false ->
   DecodeClusterSecret h = inl hex_ErrLength).
Proof.
  destruct (hex_Decode_cases h) as (_ & Ho & Hb).
  unfold DecodeClusterSecret, hex.DecodeString. split.
  - intros Ha. destruct (Hb Ha) as (l & c & -> & Hc). exists c. auto.
  - intros Ha Hp. destruct (Ho Ha Hp) as (l & ->). reflexivity.
Qed.

(** X4. What [DecodeClusterSecret] returns is a fixed point of the codec:
    encoding a decoded secret with [EncodeProtectorKey] and decoding it
    again gives the same slice, nil included. *)
Theorem DecodeClusterSecret_stable (h : string) (s : slice) :
  DecodeClusterSecret h = inr s ->
  DecodeClusterSecret (EncodeProtectorKey s) = inr s.
Proof.
  intros H. rewrite DecodeClusterSecret_Encode.
  destruct (DecodeClusterSecret_ok _ H) as [->|(l & -> & Hl)].
  - reflexivity.
  - unfold len. cbn [elements]. rewrite Hl. reflexivity.
Qed.

(** X5. [EncodeProtectorKey] is injective on the bytes: two slices with
    the same hex text have the same elements, so different secrets never
    share an encoding. *)
Theorem EncodeProtectorKey_injective (a b : slice) :
  EncodeProtectorKey a = EncodeProtectorKey b -> elements a = elements b.
Proof.
  unfold EncodeProtectorKey. intros H.
  assert (E : hex.Decode (hex.EncodeToString (elements a))
              = hex.Decode (hex.EncodeToString (elements b))) by (rewrite H; reflexivity).
  rewrite !hex_Decode_EncodeToString in E. inversion E. reflexivity.
Qed.

Lemma DecodeClusterSecret_accepted_witness :
  DecodeClusterSecret Model.secret_text
  = inr (Some (fst (hex.DecodeString Model.secret_text)))
  /\ all_hex Model.secret_text = true
  /\ String.length Model.secret_text = 64.
Proof.
  assert (H : DecodeClusterSecret Model.secret_text
              = inr (Some (fst (hex.DecodeString Model.secret_text))))
    by reflexivity.
  split; [exact H|].
  destruct (DecodeClusterSecret_accepted _ H) as (Ha & [[Hh _]|[Hl _]]).
  - discriminate Hh.
  - split; [exact Ha|exact Hl].
Defined.

Lemma DecodeClusterSecret_hex_text_witness :
  exists l,
    hex.DecodeString "00FF" = (l, None) /\ List.length l = 2
    /\ DecodeClusterSecret "00FF"
       = inl (errors_New "input secret is 2 bytes, cluster secret should be 32").
Proof.
  apply (@DecodeClusterSecret_hex_text "00FF" 2); reflexivity.
Defined.

Lemma DecodeClusterSecret_malformed_witness :
  DecodeClusterSecret "abc" = inl hex_ErrLength.
Proof.
  apply (proj2 (DecodeClusterSecret_malformed "abc")); reflexivity.
Defined.

Lemma DecodeClusterSecret_stable_witness :
  DecodeClusterSecret
    (EncodeProtectorKey (Some (fst (hex.DecodeString Model.secret_text))))
  = inr (Some (fst (hex.DecodeString Model.secret_text))).
Proof.
  apply (@DecodeClusterSecret_stable Model.secret_text). reflexivity.
Defined.

Lemma EncodeProtectorKey_injective_witness :
  elements (Some []) = elements None.
Proof.
  apply EncodeProtectorKey_injective. reflexivity.
Defined.

(** ** Generation, failing *)

Section GenerationFailure.

Context {C : Collaborators}.

(** X6. [Default] is not atomic. When the key pair or the peer ID cannot
    be produced it returns that error and the receiver has only a new
    peer name, the host name; when the secret cannot be produced the
    receiver already has the new ID and private key, and its old
    secret. *)
Theorem Default_failure (w : World) (id : Identity) :
  (forall e,
     crypto_GenerateKeyPair w DefaultConfigCrypto DefaultConfigKeyLength = inl e ->
     Default w id =
       ({| ID := ID id; PrivateKey := PrivateKey id;
           Peername := hostname_or_empty w; Secret := Secret id |}, Some e)) /\
  (forall priv pub e,
     crypto_GenerateKeyPair w DefaultConfigCrypto DefaultConfigKeyLength
       = inr (priv, pub) ->
     peer_IDFromPublicKey pub = inl e ->
     Default w id =
       ({| ID := ID id; PrivateKey := PrivateKey id;
           Peername := hostname_or_empty w; Secret := Secret id |}, Some e)) /\
  (forall priv pub pid e,
     crypto_GenerateKeyPair w DefaultConfigCrypto DefaultConfigKeyLength
       = inr (priv, pub) ->
     peer_IDFromPublicKey pub = inr pid ->
     pnet_GenerateV1Bytes w = inl e ->
     Default w id =
       ({| ID := pid; PrivateKey := Some priv;
           Peername := hostname_or_empty w; Secret := Secret id |}, Some e)).
Proof.
  rewrite Default_eq. repeat split.
  - intros e H1. rewrite H1. reflexivity.
  - intros priv pub e H1 H2. rewrite H1, H2. reflexivity.
  - intros priv pub pid e H1 H2 H3. rewrite H1, H2, H3. reflexivity.
Qed.

(** X7. A successful [Default] overwrites every field: the identity it
    leaves does not depend on the receiver it was called on. *)
Theorem Default_overwrites (w : World) (id1 id2 id' : Identity) :
  Default w id1 = (id', None) -> Default w id2 = (id', None).
Proof.
  intros H.
  destruct (Default_ok _ _ H) as (priv & pub & pid & v & H1 & H2 & H3 & ->).
  rewrite Default_eq, H1, H2, H3. reflexivity.
Qed.

(** X8. Failing to read the host name is never an error: the error that
    [Default] and [LoadJSON] return is the same whatever [os.Hostname]
    answers. *)
Theorem Hostname_not_fatal (h : result string) (w : World) (raw : bytes)
    (id : Identity) :
  snd (Default (with_Hostname h w) id) = snd (Default w id)
  /\ snd (LoadJSON (with_Hostname h w) raw id) = snd (LoadJSON w raw id).
Proof.
  split.
  - rewrite !Default_eq. cbn [with_Hostname crypto_GenerateKeyPair pnet_GenerateV1Bytes].
    destruct (crypto_GenerateKeyPair w _ _) as [e|[priv pub]]; [reflexivity|].
    destruct (peer_IDFromPublicKey pub) as [e|pid]; [reflexivity|].
    destruct (pnet_GenerateV1Bytes w) as [e|v]; reflexivity.
  - rewrite !LoadJSON_eq.
    destruct (json_Unmarshal raw) as [e|jID]; [reflexivity|].
    rewrite !applyConfigJSON_eq.
    destruct (peer_IDB58Decode (json_id jID)) as [e|pid]; [reflexivity|].
    destruct (base64_DecodeString (json_private_key jID)) as [e|pkb];
      [reflexivity|].
    destruct (crypto_UnmarshalPrivateKey pkb) as [e|pKey]; [reflexivity|].
    destruct (DecodeClusterSecret (json_secret jID)) as [e|s]; [reflexivity|].
    reflexivity.
Qed.

End GenerationFailure.

Lemma Default_failure_witness :
  Default (with_sources Model.keypair (inl (errors_New "entropy")) Model.world)
    Model.named
  = ({| ID := "Qm0a0b"; PrivateKey := Some Model.key;
        Peername := "node0"; Secret := Secret Model.named |},
     Some (errors_New "entropy")).
Proof.
  refine (proj2 (proj2
    (@Default_failure Model.collaborators
       (with_sources Model.keypair (inl (errors_New "entropy")) Model.world)
       Model.named))
    Model.key _ "Qm0a0b" _ _ _ _).
  - reflexivity.
  - reflexivity.
  - reflexivity.
Defined.

Lemma Default_overwrites_witness :
  Default Model.world Model.named = (Model.generated, None).
Proof.
  apply (@Default_overwrites Model.collaborators Model.world Model.blank).
  vm_compute. reflexivity.
Defined.

(** ** Decoding, further *)

Section DecodingFurther.

Context {C : Collaborators}.

(** X9. Decoding always ends with [Validate]: the identity a successful
    [LoadJSON] or [ApplyEnvVars] leaves passes [Validate]. *)
Theorem decoded_is_valid :
  (forall w raw (id id' : Identity),
     LoadJSON w raw id = (id', None) -> Validate id' = None) /\
  (forall w (id id' : Identity),
     ApplyEnvVars w id = Done (id', None) -> Validate id' = None).
Proof.
  assert (Ha : forall jID (id id' : Identity),
             applyConfigJSON jID id = (id', None) -> Validate id' = None).
  { intros jID id id' H. apply applyConfigJSON_ok in H.
    destruct H as (pid & pkb & pKey & s & _ & _ & _ & _ & -> & Hne).
    apply Validate_None. cbn. split; [exact Hne|discriminate]. }
  split.
  - intros w raw id id'. rewrite LoadJSON_eq.
    destruct (json_Unmarshal raw) as [e|jID]; [discriminate|]. apply Ha.
  - intros w id id'. unfold ApplyEnvVars.
    destruct (toIdentityJSON id) as [[jID [e|]]|r]; try discriminate.
    destruct (envconfig.Process _ _ _) as [jID' [e|]]; [discriminate|].
    intros H. inversion H as [H']. eapply Ha; eassumption.
Qed.

(** X10. A successful [LoadJSON] overwrites every field: the identity it
    leaves is determined by the document and the host name and does not
    depend on the receiver. *)
Theorem LoadJSON_overwrites (w : World) (raw : bytes) (id1 id2 id' : Identity) :
  LoadJSON w raw id1 = (id', None) -> LoadJSON w raw id2 = (id', None).
Proof.
  rewrite !LoadJSON_eq.
  destruct (json_Unmarshal raw) as [e|jID]; [discriminate|].
  rewrite !applyConfigJSON_eq.
  destruct (peer_IDB58Decode (json_id jID)) as [e|pid]; [discriminate|].
  destruct (base64_DecodeString (json_private_key jID)) as [e|pkb];
    [discriminate|].
  destruct (crypto_UnmarshalPrivateKey pkb) as [e|pKey]; [discriminate|].
  destruct (DecodeClusterSecret (json_secret jID)) as [e|s]; [discriminate|].
  intros H. exact H.
Qed.

(** X11. The errors of [LoadJSON]. A failed [LoadJSON] returns the error
    of [json.Unmarshal] as it is, with the receiver untouched, or one of
    the four wrapped field errors, or the error of [Validate] for an
    empty ID. The other error of [Validate], for a missing private key,
    cannot come out of [applyConfigJSON]. *)
Theorem LoadJSON_errors (w : World) (raw : bytes) (id id' : Identity)
    (err : error) :
  LoadJSON w raw id = (id', Some err) ->
  (json_Unmarshal raw = inl err /\ id' = id)
  \/ (exists jID e,
        json_Unmarshal raw = inr jID
        /\ (err = fmt_Errorf "error decoding cluster ID: " e
            \/ err = fmt_Errorf "error decoding private_key: " e
            \/ err = fmt_Errorf "error parsing private_key ID: " e
            \/ err = fmt_Errorf "error loading cluster secret from config: " e))
  \/ (exists jID,
        json_Unmarshal raw = inr jID
        /\ err = errors_New "cluster.ID not set" /\ ID id' = ""
        /\ PrivateKey id' <> None).
Proof.
  rewrite LoadJSON_eq.
  destruct (json_Unmarshal raw) as [e|jID].
  { intros H. inversion H. left. split; reflexivity. }
  rewrite applyConfigJSON_eq. intros H. right.
  destruct (peer_IDB58Decode (json_id jID)) as [e|pid].
  { inversion H. left. exists jID, e. auto. }
  destruct (base64_DecodeString (json_private_key jID)) as [e|pkb].
  { inversion H. left. exists jID, e. auto. }
  destruct (crypto_UnmarshalPrivateKey pkb) as [e|pKey].
  { inversion H. left. exists jID, e. auto. }
  destruct (DecodeClusterSecret (json_secret jID)) as [e|s].
  { inversion H. left. exists jID, e. auto 6. }
  right. exists jID. inversion H as [[Hid Hv]]. clear H.
  unfold Validate in *. cbn [ID PrivateKey after_Secret] in *.
  destruct (String.eqb_spec pid "") as [E|E]; [|discriminate].
  inversion Hv. repeat split; [exact E|discriminate].
Qed.

(** X12. The peer name after a successful [LoadJSON] is the one of the
    document when the document gives one, and otherwise the host name, or
    the empty string when the host name cannot be read. The name the
    receiver had before is never kept. *)
Theorem LoadJSON_Peername (w : World) (raw : bytes) (id id' : Identity)
    (jID : identityJSON) :
  json_Unmarshal raw = inr jID ->
  LoadJSON w raw id = (id', None) ->
  (json_peername jID <> "" -> Peername id' = json_peername jID)
  /\ (json_peername jID = "" -> forall hostname,
        os_Hostname w = inr hostname -> Peername id' = hostname)
  /\ (json_peername jID = "" -> forall e,
        os_Hostname w = inl e -> Peername id' = "").
Proof.
  intros Hj. rewrite LoadJSON_eq, Hj. intros H.
  apply applyConfigJSON_ok in H.
  destruct H as (pid & pkb & pKey & s & _ & _ & _ & _ & -> & _).
  cbn [Peername after_Secret with_Peername]. unfold hostname_or_empty.
  repeat split.
  - apply SetIfNotDefault_set.
  - intros -> hostname ->. reflexivity.
  - intros -> e ->. reflexivity.
Qed.

End DecodingFurther.

Lemma decoded_is_valid_witness :
  Validate (fst (LoadJSON Model.world Model.encoded Model.named)) = None.
Proof.
  apply (proj1 (@decoded_is_valid Model.collaborators) Model.world
           Model.encoded Model.named).
  vm_compute. reflexivity.
Defined.

Lemma LoadJSON_overwrites_witness :
  LoadJSON Model.world Model.encoded Model.blank = (Model.generated, None).
Proof.
  apply (@LoadJSON_overwrites Model.collaborators Model.world Model.encoded
           Model.named).
  vm_compute. reflexivity.
Defined.

Lemma LoadJSON_errors_witness :
  exists jID e,
    Model.Unmarshal (Model.document "Qm77" "bob" "" "") = inr jID
    /\ fmt_Errorf "error parsing private_key ID: " (errors_New "malformed key")
       = fmt_Errorf "error parsing private_key ID: " e.
Proof.
  destruct (@LoadJSON_errors Model.collaborators Model.world
              (Model.document "Qm77" "bob" "" "") Model.named
              {| ID := "Qm77"; PrivateKey := Some Model.key;
                 Peername := "bob"; Secret := None |}
              (fmt_Errorf "error parsing private_key ID: "
                 (errors_New "malformed key")) eq_refl)
    as [[H _]|[(jID & e & H & [E|[E|[E|E]]])|(jID & _ & E & _)]];
    try discriminate.
  exists jID, e. split; assumption.
Defined.

Lemma LoadJSON_Peername_witness :
  Peername (fst (LoadJSON Model.world (Model.document "Qm77" "" "0102" "")
                   Model.named)) = "node0".
Proof.
  refine (proj1 (proj2
    (@LoadJSON_Peername Model.collaborators Model.world
       (Model.document "Qm77" "" "0102" "") Model.named _
       {| json_id := "Qm77"; json_peername := ""; json_private_key := "0102";
          json_secret := "" |} _ _)) _ "node0" _).
  - vm_compute. reflexivity.
  - vm_compute. reflexivity.
  - reflexivity.
  - reflexivity.
Defined.

(** ** Encoding and saving *)

Section EncodingFurther.

Context {C : Collaborators}.

Lemma ToJSON_cases (id : Identity) :
  (exists raw, ToJSON id = Done (Some raw, None))
  \/ (exists e, ToJSON id = Done (None, Some e)).
Proof.
  unfold ToJSON. rewrite toIdentityJSON_eq.
  destruct (PrivateKey_Bytes (PrivateKey id)) as [[e|bs]|r].
  - right. exists e. reflexivity.
  - destruct (json_MarshalIndent _) as [e|raw].
    + right. exists e. reflexivity.
    + left. exists raw. reflexivity.
  - right. eexists. reflexivity.
Qed.

(** X13. [ToJSON] never panics, whatever the identity and whatever the key
    does, and returns either the bytes and no error or no bytes and an
    error, never both and never neither. An error returned by the key's
    [Bytes] is passed on as it is. *)
Theorem ToJSON_outcome (id : Identity) :
  ((exists raw, ToJSON id = Done (Some raw, None))
   \/ (exists e, ToJSON id = Done (None, Some e)))
  /\ (forall k e,
        PrivateKey id = Some k -> PrivKey_Bytes k = Done (inl e) ->
        ToJSON id = Done (None, Some e)).
Proof.
  split; [apply ToJSON_cases|].
  intros k e Hk Hb. unfold ToJSON. rewrite toIdentityJSON_eq, Hk.
  cbn [PrivateKey_Bytes]. rewrite Hb. reflexivity.
Qed.

(** X14. [SaveJSON] never panics and never writes a partial document:
    when [ToJSON] fails it returns that error without any call to the
    file system; otherwise it makes exactly one call, [WriteFile] of the
    bytes of [ToJSON] at the given path with permission 0600, and returns
    what that call returns. *)
Theorem SaveJSON_outcome (answer : fs_call -> option error) (path : string)
    (id : Identity) :
  (exists e,
     ToJSON id = Done (None, Some e)
     /\ SaveJSON answer path id = Done ([], Some e))
  \/ (exists raw,
        ToJSON id = Done (Some raw, None)
        /\ SaveJSON answer path id
           = Done ([WriteFile path raw 384],
                   answer (WriteFile path raw 384))).
Proof.
  unfold SaveJSON.
  destruct (ToJSON_cases id) as [(raw & H)|(e & H)]; rewrite H.
  - right. exists raw. split; reflexivity.
  - left. exists e. split; reflexivity.
Qed.

End EncodingFurther.

Lemma ToJSON_outcome_witness :
  ToJSON Model.unreadable = Done (None, Some (errors_New "empty key")).
Proof.
  apply (proj2 (@ToJSON_outcome Model.collaborators Model.unreadable)
           Model.empty_key); reflexivity.
Defined.

(** ** The overlay, further *)

Section Overlay.

Context {C : Collaborators}.

(** X15. [ApplyEnvVars] never panics, and when the identity cannot be
    encoded it returns the error without reading any variable and leaves
    the receiver as it was: with a nil private key, the recovered
    nil-dereference; with a key whose [Bytes] panics or fails, that
    panic value recovered or that error. *)
Theorem ApplyEnvVars_encoding_failure (w : World) (id : Identity) :
  (exists out, ApplyEnvVars w id = Done out)
  /\ (PrivateKey id = None ->
      ApplyEnvVars w id = Done (id, Some (fmt_Errorf "" nil_dereference)))
  /\ (forall k r,
        PrivateKey id = Some k -> PrivKey_Bytes k = Panicked r ->
        ApplyEnvVars w id = Done (id, Some (fmt_Errorf "" r)))
  /\ (forall k e,
        PrivateKey id = Some k -> PrivKey_Bytes k = Done (inl e) ->
        ApplyEnvVars w id = Done (id, Some e)).
Proof.
  unfold ApplyEnvVars. rewrite toIdentityJSON_eq. repeat split.
  - destruct (PrivateKey_Bytes (PrivateKey id)) as [[e|bs]|r];
      eexists; reflexivity.
  - intros ->. reflexivity.
  - intros k r -> Hb. cbn [PrivateKey_Bytes]. rewrite Hb. reflexivity.
  - intros k e -> Hb. cbn [PrivateKey_Bytes]. rewrite Hb. reflexivity.
Qed.

Context {L : Lawful C}.

(** The overlay of a sound identity when the variables of the ID and of
    the private key are not set: the name and the secret text that reach
    [applyConfigJSON], and what it makes of them. *)
Lemma ApplyEnvVars_name_secret (w : World) (id : Identity) (bs : bytes) :
  well_formed id bs ->
  os_LookupEnv w "CLUSTER_ID" = None ->
  os_LookupEnv w "CLUSTER_PRIVATEKEY" = None ->
  let name :=
    SetIfNotDefault
      (envconfig.processField (os_LookupEnv w) "CLUSTER_PEERNAME" (Peername id))
      (Peername id) in
  let text :=
    envconfig.processField (os_LookupEnv w) "CLUSTER_SECRET"
      (EncodeProtectorKey (Secret id)) in
  exists k',
    crypto_UnmarshalPrivateKey bs = inr k'
    /\ PrivKey_Bytes k' = Done (inr bs)
    /\ ApplyEnvVars w id =
         Done match DecodeClusterSecret text with
              | inl e =>
                  ({| ID := ID id; PrivateKey := Some k'; Peername := name;
                      Secret := Secret id |},
                   Some (fmt_Errorf
                           "error loading cluster secret from config: " e))
              | inr s =>
                  ({| ID := ID id; PrivateKey := Some k'; Peername := name;
                      Secret := s |}, None)
              end.
Proof.
  intros (Hne & Hid & (k & Hk & Hb) & Hlen) E1 E3 name text.
  destruct (UnmarshalPrivateKey_Bytes _ Hb) as (k' & Hu & Hb').
  exists k'. split; [exact Hu|]. split; [exact Hb'|].
  unfold ApplyEnvVars. rewrite toIdentityJSON_eq, Hk.
  cbn [PrivateKey_Bytes]. rewrite Hb.
  unfold envconfig.Process.
  change (envconfig.Key "CLUSTER" "ID") with "CLUSTER_ID".
  change (envconfig.Key "CLUSTER" "Peername") with "CLUSTER_PEERNAME".
  change (envconfig.Key "CLUSTER" "PrivateKey") with "CLUSTER_PRIVATEKEY".
  change (envconfig.Key "CLUSTER" "Secret") with "CLUSTER_SECRET".
  cbn [json_id json_peername json_private_key json_secret].
  unfold envconfig.processField at 1 3. rewrite E1, E3.
  rewrite applyConfigJSON_eq.
  cbn [json_id json_peername json_private_key json_secret].
  rewrite Hid, base64_Decode_Encode, Hu.
  fold text.
  destruct (DecodeClusterSecret text) as [e|s]; [reflexivity|].
  unfold after_Secret. cbn [json_peername]. fold name.
  f_equal. f_equal. apply Validate_None. cbn. split; [assumption|discriminate].
Qed.

End Overlay.

Lemma DecodeClusterSecret_own_text (s : slice) :
  len s = 0 \/ len s = 32 ->
  exists s', DecodeClusterSecret (EncodeProtectorKey s) = inr s'
             /\ elements s' = elements s
             /\ (len s' = 0 \/ len s' = 32)
             /\ DecodeClusterSecret (EncodeProtectorKey s') = inr s'.
Proof.
  intros H. rewrite DecodeClusterSecret_Encode.
  destruct H as [H|H]; rewrite H; cbn [Nat.eqb].
  - exists None. unfold len in H.
    destruct (elements s) eqn:E; [|discriminate]. repeat split. left. reflexivity.
  - exists (Some (elements s)). repeat split.
    + right. exact H.
    + rewrite DecodeClusterSecret_Encode. unfold len in *. cbn [elements].
      rewrite H. reflexivity.
Qed.

Section OverlayOverrides.

Context {C : Collaborators} {L : Lawful C}.

(** X16. Overriding the peer name. When only [CLUSTER_PEERNAME] is set,
    [ApplyEnvVars] on a sound identity succeeds; the peer name becomes
    the value of the variable, unless that is the empty string, which
    leaves the name as it was; the ID, the canonical bytes of the key and
    the bytes of the secret are unchanged. *)
Theorem ApplyEnvVars_Peername (w : World) (id : Identity) (bs : bytes)
    (name : string) :
  well_formed id bs ->
  os_LookupEnv w "CLUSTER_ID" = None ->
  os_LookupEnv w "CLUSTER_PRIVATEKEY" = None ->
  os_LookupEnv w "CLUSTER_SECRET" = None ->
  os_LookupEnv w "CLUSTER_PEERNAME" = Some name ->
  exists id',
    ApplyEnvVars w id = Done (id', None)
    /\ (name <> "" -> Peername id' = name)
    /\ (name = "" -> Peername id' = Peername id)
    /\ ID id' = ID id
    /\ key_bytes id' bs
    /\ elements (Secret id') = elements (Secret id).
Proof.
  intros Hwf E1 E3 E4 E2.
  destruct (ApplyEnvVars_name_secret w Hwf E1 E3) as (k' & Hu & Hb' & Ha).
  unfold envconfig.processField in Ha. rewrite E2, E4 in Ha.
  destruct Hwf as (_ & _ & _ & Hlen).
  destruct (DecodeClusterSecret_own_text _ Hlen) as (s' & Hs & He & _).
  rewrite Hs in Ha. eexists. split; [exact Ha|].
  cbn [ID PrivateKey Peername Secret]. repeat split.
  - apply SetIfNotDefault_set.
  - intros ->. reflexivity.
  - exists k'. split; [reflexivity|exact Hb'].
  - exact He.
Qed.

(** X17. Overriding the secret. When only [CLUSTER_SECRET] is set, to the
    text [h], [ApplyEnvVars] on a sound identity succeeds exactly when
    [DecodeClusterSecret] accepts [h], and then the secret is the decoded
    one, nil for the empty text. When [h] is rejected the error is the
    wrapped secret error and the old secret is kept. In both cases the
    ID, the canonical bytes of the key and the peer name are unchanged. *)
Theorem ApplyEnvVars_Secret (w : World) (id : Identity) (bs : bytes)
    (h : string) :
  well_formed id bs ->
  os_LookupEnv w "CLUSTER_ID" = None ->
  os_LookupEnv w "CLUSTER_PRIVATEKEY" = None ->
  os_LookupEnv w "CLUSTER_PEERNAME" = None ->
  os_LookupEnv w "CLUSTER_SECRET" = Some h ->
  exists id' err,
    ApplyEnvVars w id = Done (id', err)
    /\ ID id' = ID id /\ key_bytes id' bs /\ Peername id' = Peername id
    /\ (forall s, DecodeClusterSecret h = inr s ->
                  err = None /\ Secret id' = s)
    /\ (forall e, DecodeClusterSecret h = inl e ->
                  err = Some (fmt_Errorf
                                "error loading cluster secret from config: " e)
                  /\ Secret id' = Secret id).
Proof.
  intros Hwf E1 E3 E2 E4.
  destruct (ApplyEnvVars_name_secret w Hwf E1 E3) as (k' & Hu & Hb' & Ha).
  unfold envconfig.processField in Ha. rewrite E2, E4 in Ha.
  rewrite SetIfNotDefault_same in Ha.
  destruct (DecodeClusterSecret h) as [e|s]; do 2 eexists;
    (split; [exact Ha|]); cbn [ID PrivateKey Peername Secret];
    repeat split; try discriminate; try congruence;
    try (exists k'; split; [reflexivity|exact Hb']).
Qed.

(** X18. The overlay with no variable set is idempotent: the identity a
    successful [ApplyEnvVars] leaves is left exactly as it is by a second
    [ApplyEnvVars], key and nil-normalised secret included. *)
Theorem ApplyEnvVars_idempotent (w : World) (id id' : Identity) (bs : bytes) :
  no_variables w ->
  well_formed id bs ->
  ApplyEnvVars w id = Done (id', None) ->
  ApplyEnvVars w id' = Done (id', None).
Proof.
  intros (E1 & E2 & E3 & E4) Hwf H.
  destruct (ApplyEnvVars_name_secret w Hwf E1 E3) as (k' & Hu & Hb' & Ha).
  unfold envconfig.processField in Ha. rewrite E2, E4 in Ha.
  rewrite SetIfNotDefault_same in Ha.
  destruct Hwf as (Hne & Hid & _ & Hlen).
  destruct (DecodeClusterSecret_own_text _ Hlen) as (s' & Hs & _ & Hlen' & Hs').
  rewrite Hs in Ha. rewrite Ha in H. inversion H; subst id'; clear H.
  assert (Hwf' : well_formed
                   {| ID := ID id; PrivateKey := Some k';
                      Peername := Peername id; Secret := s' |} bs).
  { repeat split; cbn; try assumption. exists k'. split; [reflexivity|exact Hb']. }
  destruct (ApplyEnvVars_name_secret w Hwf' E1 E3) as (k'' & Hu' & _ & Ha').
  unfold envconfig.processField in Ha'. rewrite E2, E4 in Ha'.
  cbn [ID PrivateKey Peername Secret] in Ha'.
  rewrite SetIfNotDefault_same, Hs' in Ha'.
  rewrite Hu in Hu'. inversion Hu'; subst k''. exact Ha'.
Qed.

End OverlayOverrides.

Lemma ApplyEnvVars_encoding_failure_witness :
  ApplyEnvVars Model.world_empty_vars Model.corrupt
  = Done (Model.corrupt, Some (fmt_Errorf "" (errors_New "corrupt key"))).
Proof.
  apply (proj1 (proj2 (proj2
    (@ApplyEnvVars_encoding_failure Model.collaborators Model.world_empty_vars
       Model.corrupt))) Model.corrupt_key); reflexivity.
Defined.

Lemma ApplyEnvVars_Peername_witness :
  exists id',
    ApplyEnvVars (with_variables (Some "carol") None Model.world) Model.generated
    = Done (id', None)
    /\ Peername id' = "carol"
    /\ ID id' = ID Model.generated.
Proof.
  destruct (@ApplyEnvVars_Peername _ Model_lawful
              (with_variables (Some "carol") None Model.world)
              Model.generated Model.key "carol" Model_generated_well_formed
              eq_refl eq_refl eq_refl eq_refl)
    as (id' & Ha & Hn & _ & Hi & _).
  exists id'. repeat split; try assumption. apply Hn. discriminate.
Defined.

Lemma ApplyEnvVars_Secret_witness :
  exists id',
    ApplyEnvVars (with_variables None (Some Model.secret_text) Model.world)
      Model.generated
    = Done (id', None)
    /\ Secret id' = Some (fst (hex.DecodeString Model.secret_text))
    /\ Peername id' = Peername Model.generated.
Proof.
  destruct (@ApplyEnvVars_Secret _ Model_lawful
              (with_variables None (Some Model.secret_text) Model.world)
              Model.generated Model.key Model.secret_text
              Model_generated_well_formed eq_refl eq_refl eq_refl eq_refl)
    as (id' & err & Ha & _ & _ & Hp & Hs & _).
  destruct (Hs (Some (fst (hex.DecodeString Model.secret_text))) eq_refl)
    as (-> & Hs').
  exists id'. repeat split; assumption.
Defined.

Lemma ApplyEnvVars_idempotent_witness :
  ApplyEnvVars Model.world
    {| ID := "Qm0a0b"; PrivateKey := Some Model.key; Peername := "node0";
       Secret := None |}
  = Done ({| ID := "Qm0a0b"; PrivateKey := Some Model.key;
             Peername := "node0"; Secret := None |}, None).
Proof.
  apply (@ApplyEnvVars_idempotent _ Model_lawful Model.world
           Model.open_network _ Model.key).
  - repeat split.
  - repeat split.
    + discriminate.
    + exists Model.key. split; reflexivity.
    + left. reflexivity.
  - reflexivity.
Defined.

(** ** What is persisted and what is accepted *)

Lemma hex_EncodeToString_all_hex (l : bytes) :
  all_hex (hex.EncodeToString l) = true.
Proof.
  apply (hex_Decode_ok (hex.EncodeToString l) (l := l)).
  apply hex_Decode_EncodeToString.
Qed.

Section Persisted.

Context {C : Collaborators}.

(** X19. The document of a generated identity: after a successful
    [Default], the document [toIdentityJSON] builds carries a secret text
    of exactly 64 hexadecimal characters, which [DecodeClusterSecret]
    reads back as the generated secret, and the host name as peer name. *)
Theorem generated_document (w : World) (id0 id : Identity)
    (jID : identityJSON) :
  Default w id0 = (id, None) ->
  toIdentityJSON id = Done (jID, None) ->
  String.length (json_secret jID) = 64
  /\ all_hex (json_secret jID) = true
  /\ DecodeClusterSecret (json_secret jID) = inr (Secret id)
  /\ json_peername jID = hostname_or_empty w
  /\ json_id jID = ID_Pretty (ID id).
Proof.
  intros Hd Hj.
  destruct (Default_ok _ _ Hd) as (priv & pub & pid & v & _ & _ & _ & ->).
  rewrite toIdentityJSON_eq in Hj. cbn [PrivateKey PrivateKey_Bytes] in Hj.
  destruct (PrivKey_Bytes priv) as [[e|bs]|r]; try discriminate.
  inversion Hj; subst jID; clear Hj.
  cbn [json_secret json_peername json_id ID Peername Secret].
  assert (Hl : List.length (Vector.to_list v) = 32)
    by apply Vector.length_to_list.
  unfold EncodeProtectorKey at 1 2. cbn [elements].
  repeat split.
  - rewrite hex_EncodeToString_length, Hl. reflexivity.
  - apply hex_EncodeToString_all_hex.
  - rewrite DecodeClusterSecret_Encode. unfold len. cbn [elements].
    rewrite Hl. reflexivity.
Qed.

(** X20. [LoadJSON] succeeds exactly when the document unmarshals, each of
    its four fields decodes on its own and the decoded ID is not empty;
    the identity it leaves then has the decoded ID, key and secret. No
    check relates the ID to the private key. *)
Theorem LoadJSON_succeeds_iff (w : World) (raw : bytes) (id id' : Identity) :
  LoadJSON w raw id = (id', None) <->
  exists jID pid pkb pKey s,
    json_Unmarshal raw = inr jID
    /\ peer_IDB58Decode (json_id jID) = inr pid
    /\ pid <> ""
    /\ base64_DecodeString (json_private_key jID) = inr pkb
    /\ crypto_UnmarshalPrivateKey pkb = inr pKey
    /\ DecodeClusterSecret (json_secret jID) = inr s
    /\ id' = {| ID := pid; PrivateKey := Some pKey;
                Peername := SetIfNotDefault (json_peername jID)
                              (hostname_or_empty w);
                Secret := s |}.
Proof.
  rewrite LoadJSON_eq. split.
  - destruct (json_Unmarshal raw) as [e|jID]; [discriminate|].
    intros H. apply applyConfigJSON_ok in H.
    destruct H as (pid & pkb & pKey & s & H1 & H2 & H3 & H4 & -> & Hne).
    exists jID, pid, pkb, pKey, s. repeat split; assumption.
  - intros (jID & pid & pkb & pKey & s & Hj & H1 & Hne & H2 & H3 & H4 & ->).
    rewrite Hj, applyConfigJSON_eq, H1, H2, H3, H4.
    unfold after_Secret. cbn [Peername with_Peername].
    f_equal. apply Validate_None. cbn. split; [exact Hne|discriminate].
Qed.

End Persisted.

Lemma generated_document_witness :
  String.length
    (EncodeProtectorKey (Secret Model.generated)) = 64
  /\ all_hex (EncodeProtectorKey (Secret Model.generated)) = true.
Proof.
  destruct (@generated_document Model.collaborators Model.world Model.blank
              Model.generated
              {| json_id := "Qm0a0b"; json_peername := "node0";
                 json_private_key := "010203";
                 json_secret := EncodeProtectorKey (Secret Model.generated) |}
              eq_refl eq_refl)
    as (Hl & Ha & _).
  split; [exact Hl|exact Ha].
Defined.
